(** * project-birdfeeder: the per-frame deterrence callback, the result
  store it writes, and the viewer that reads the store back.

  Embedded sources: [bird_classify.py] ([save_data], [print_results],
  [do_training], the callback [user_callback] of [main]) and [app.py]
  ([index], [review_deter_triggers]). *)

From Stdlib Require Import ZArith QArith Ascii String List Lia.
From stdpp Require Import base option list gmap strings pretty fin_maps.

Set Warnings "-register-all".
Set Default Proof Using "Type".

Local Open Scope Z_scope.

(** ** Python string operations used by the two programs *)

Module PyStr.

(** [s.startswith(p)] *)
Fixpoint startswith (s p : string) : bool :=
  match p, s with
  | EmptyString, _ => true
  | String a p', String b s' => if Ascii.eqb a b then startswith s' p' else false
  | String _ _, EmptyString => false
  end.

(** [s.endswith(suffix)]: some tail of [s] is [suffix]. *)
Fixpoint endswith (s suffix : string) : bool :=
  if String.eqb s suffix then true
  else match s with
       | EmptyString => false
       | String _ s' => endswith s' suffix
       end.

(** [s[n:]] *)
Fixpoint drop (n : nat) (s : string) : string :=
  match n, s with
  | O, _ => s
  | S n', String _ s' => drop n' s'
  | S _, EmptyString => EmptyString
  end.

(** [sub in s] for strings: [sub] occurs somewhere in [s]. *)
Fixpoint contains (s sub : string) : bool :=
  if startswith s sub then true
  else match s with
       | EmptyString => false
       | String _ s' => contains s' sub
       end.

(** The scan of [s.replace(old, new)] for a non-empty [old]: leftmost
    occurrences first, never overlapping.  [fuel] bounds the number of
    positions visited; [String.length s] is always enough. *)
Fixpoint replace_scan (old new : string) (fuel : nat) (s : string) : string :=
  match fuel with
  | O => EmptyString
  | S fuel' =>
      match s with
      | EmptyString => EmptyString
      | String c s' =>
          if startswith s old
          then new +:+ replace_scan old new fuel' (drop (String.length old) s)
          else String c (replace_scan old new fuel' s')
      end
  end.

(** With an empty [old] Python puts [new] before every character and at
    the end. *)
Fixpoint interleave (new s : string) : string :=
  match s with
  | EmptyString => new
  | String c s' => new +:+ String c (interleave new s')
  end.

(** [s.replace(old, new)] *)
Definition replace (s old new : string) : string :=
  match old with
  | EmptyString => interleave new s
  | String _ _ => replace_scan old new (String.length s) s
  end.

(** ['0' * n] *)
Fixpoint zeros (n : nat) : string :=
  match n with
  | O => EmptyString
  | S n' => String "0" (zeros n')
  end.

(** The padding of the [%0<width>d] conversion: zeros on the left up to
    [width] characters, none when the digits are already that long. *)
Definition zero_pad (width : nat) (digits : string) : string :=
  zeros (width - String.length digits) +:+ digits.

(** ['%010d' % n] *)
Definition format_010d (n : Z) : string :=
  match n with
  | Zneg p => "-" +:+ zero_pad 9 (pretty (Zpos p))
  | _ => zero_pad 10 (pretty n)
  end.

End PyStr.

(** ** The Python values and the world the programs run in *)

Section Model.

(** [Image]: a camera frame (a PIL image, an opaque blob once on disk).
    [float]: Python's floating-point numbers; the programs only carry
    scores around, so nothing is assumed about them. *)
Context {Image float : Type}.

(** pycoral's [Class(id, score)] named tuple. *)
Record Class := mkClass { id : Z; score : float }.

(** A JSON document, as [json.dump] writes it and [json.load] reads it.
    The text-level syntax is the [json] module's and is not modelled. *)
Inductive json :=
| JNull
| JBool (b : bool)
| JInt (n : Z)
| JFloat (x : float)
| JString (s : string)
| JArray (items : list json)
| JObject (members : list (string * json)).

(** The Python values [json.load] can return. A dict is kept as its
    members in document order; the programs only test key membership. *)
Inductive pyval :=
| PyNone
| PyBool (b : bool)
| PyInt (n : Z)
| PyFloat (x : float)
| PyStr (s : string)
| PyList (items : list pyval)
| PyDict (members : list (string * pyval)).

(** What a file of the store holds. A file that is not a JSON document
    behaves like [Png] under [json.load]. *)
Inductive content :=
| Png (img : Image)
| JsonText (doc : json).

(** Lines written to standard output; the digits of the [%.2f]
    conversions are not modelled, a line carries its operands. *)
Inductive line :=
| FrameSaved (name : string)
| InferenceLine (start_time last_time end_time : Z)
| ResultLine (label : Z) (score_ : float)
| DifferenceDetected.

(** Calls that leave the process, in the order they are made. *)
Inductive event :=
| Playsound (sound : string)
| ImageSave (name : string) (img : Image)
| Stdout (l : line)
| LoggingInfo (tag : string) (results : list Class)
| JsonDump (name : string) (doc : json).

(** The file system is keyed by full path. [clock] is the sequence of
    readings of [time.monotonic()], each kept as the whole number of
    milliseconds [int(t*1000)]; [reads] counts the readings taken. *)
Record world := World {
  fs : gmap string content;
  trace : list event;
  clock : nat -> Z;
  reads : nat
}.

Inductive exn :=
| NameError (name : string)
| KeyError (key : Z)
| FileNotFoundError (path : string)
| ValueError (path : string)
| TypeError
| ZeroDivisionError.

Inductive outcome (A : Type) :=
| Returned (a : A)
| Raised (e : exn).
Global Arguments Returned {A} a.
Global Arguments Raised {A} e.

(** A Python computation: it returns or raises, and leaves a world. *)
Definition Py (A : Type) : Type := world -> outcome A * world.

Definition ret {A} (a : A) : Py A := fun w => (Returned a, w).
Definition raise {A} (e : exn) : Py A := fun w => (Raised e, w).
Definition bind {A B} (m : Py A) (k : A -> Py B) : Py B :=
  fun w => match m w with
           | (Returned a, w') => k a w'
           | (Raised e, w') => (Raised e, w')
           end.

Notation "x <- m ;; k" := (bind m (fun x => k))
  (at level 100, m at next level, right associativity).
Notation "m ;;; k" := (bind m (fun _ => k))
  (at level 100, right associativity).

Definition emit (ev : event) : Py unit :=
  fun w => (Returned tt,
            {| fs := fs w; trace := trace w ++ [ev]; clock := clock w; reads := reads w |}).

Definition write_file (path : string) (c : content) : Py unit :=
  fun w => (Returned tt,
            {| fs := <[path := c]> (fs w); trace := trace w; clock := clock w; reads := reads w |}).

(** [time.monotonic()] *)
Definition time_monotonic : Py Z :=
  fun w => (Returned (clock w (reads w)),
            {| fs := fs w; trace := trace w; clock := clock w; reads := S (reads w) |}).

(** [print(...)] *)
Definition print (l : line) : Py unit := emit (Stdout l).

(** [playsound(sound)] *)
Definition playsound (sound : string) : Py unit := emit (Playsound sound).

(** [image.save(name)] *)
Definition image_save (image : Image) (name : string) : Py unit :=
  emit (ImageSave name image) ;;; write_file name (Png image).

(** The document [json.dump] writes for a list of [Class] tuples: a
    named tuple is serialized as an array of its fields. *)
Definition json_of_class (c : Class) : json := JArray [JInt (id c); JFloat (score c)].
Definition json_of_results (results : list Class) : json :=
  JArray (map json_of_class results).

(** [with open(name, 'w') as f: json.dump(results, f)] *)
Definition json_dump (results : list Class) (name : string) : Py unit :=
  emit (JsonDump name (json_of_results results)) ;;;
  write_file name (JsonText (json_of_results results)).

(** The value [json.load] builds from a document. *)
Fixpoint json_decode (j : json) : pyval :=
  match j with
  | JNull => PyNone
  | JBool b => PyBool b
  | JInt n => PyInt n
  | JFloat x => PyFloat x
  | JString s => PyStr s
  | JArray items => PyList (map json_decode items)
  | JObject members => PyDict (map (fun kv => (fst kv, json_decode (snd kv))) members)
  end.

(** [with open(path) as f: json.load(f)] *)
Definition json_load (path : string) : Py pyval :=
  fun w => match fs w !! path with
           | None => (Raised (FileNotFoundError path), w)
           | Some (JsonText doc) => (Returned (json_decode doc), w)
           | Some (Png _) => (Raised (ValueError path), w)
           end.

(** ** bird_classify.py *)

(** [save_data(image, results, path, ext='png')]. [logging.info] is
    recorded as a call; whether the record is shown depends on the
    logging configuration, which the program never sets. *)
Definition save_data (image : Image) (results : list Class) (path : string)
    (ext : string) : Py unit :=
  ms <- time_monotonic ;;
  let tag := PyStr.format_010d ms in
  let name := path +:+ "/img-" +:+ tag +:+ "." +:+ ext in
  image_save image name ;;;
  print (FrameSaved name) ;;;
  emit (LoggingInfo tag results) ;;;
  let results_name := path +:+ "/img-" +:+ tag +:+ ".json" in
  json_dump results results_name.

(** The [for label, score in results: print(...)] loop of [print_results]. *)
Fixpoint print_scores (results : list Class) : Py unit :=
  match results with
  | [] => ret tt
  | c :: rest => print (ResultLine (id c) (score c)) ;;; print_scores rest
  end.

(** [print_results(start_time, last_time, end_time, results)]; the
    division [1.0/(end_time - last_time)] raises on a zero difference. *)
Definition print_results (start_time last_time end_time : Z)
    (results : list Class) : Py unit :=
  if end_time - last_time =? 0 then raise ZeroDivisionError
  else print (InferenceLine start_time last_time end_time) ;;;
       print_scores results.

(** [do_training(results, last_results, top_k)]: the items are any
    (label, score) pairs; [label[0]] is the first component. *)
Definition do_training {K V : Type} `{Countable K}
    (results last_results : list (K * V)) (top_k : Z) : Py bool :=
  let new_labels := map fst results in
  let old_labels := map fst last_results in
  let shared_labels : gset K := list_to_set new_labels ∩ list_to_set old_labels in
  if Z.of_nat (size shared_labels) <? top_k
  then print DifferenceDetected ;;; ret true
  else ret false.

(** What [main] sets up before the pipeline starts and the callback
    closes over: the parsed arguments it reads, the label file, and the
    interpreter, seen as the function from a frame to the classes it
    scores, best first. *)
Record closure := Closure {
  args_print : bool;
  args_sound : string;
  args_storage : string;
  labels : gmap Z string;
  interpreter : Image -> list Class
}.

Definition DETER_LABELS : list string :=
  [ "fox squirrel, eastern fox squirrel, Sciurus niger";
    "heron";
    "otter";
    "cat";
    "mink" ].

(** [x in xs] for a list of strings: some element equals [x]. *)
Definition list_contains (x : string) (xs : list string) : bool :=
  existsb (fun y => String.eqb x y) xs.

(** [labels[key]] *)
Definition getitem (d : gmap Z string) (key : Z) : Py string :=
  match d !! key with
  | Some v => ret v
  | None => raise (KeyError key)
  end.

(** pycoral's [get_classes(interpreter, top_k)], from the classes of the
    last inference: at most [top_k] of them, best first. *)
Definition get_classes (ranked : list Class) (top_k : nat) : list Class :=
  firstn top_k ranked.

(** Names bound in the scopes the body of [user_callback] can see. *)
Definition callback_locals : list string :=
  [ "image"; "svg_canvas"; "start_time"; "results"; "end_time"; "result" ].
Definition main_locals : list string :=
  [ "parser"; "args"; "interpreter"; "labels"; "inference_size";
    "DETER_LABELS"; "user_callback" ].
Definition module_globals : list string :=
  [ "argparse"; "time"; "logging"; "json"; "Image"; "playsound";
    "read_label_file"; "make_interpreter"; "common"; "get_classes";
    "gstreamer"; "save_data"; "print_results"; "do_training";
    "user_selections"; "main" ].

(** Reading a name that holds a time stamp: [frame] is what the callback
    has assigned so far. *)
Definition load_name (frame : list (string * Z)) (name : string) : Py Z :=
  match List.find (fun kv => String.eqb (fst kv) name) frame with
  | Some kv => ret (snd kv)
  | None => raise (NameError name)
  end.

(** The outcome of the [for] loop of the callback: left by [break] at a
    label, or run to its end. The callback itself returns [None]; the
    model returns this in its place. *)
Inductive Decision :=
| NoAction
| Deter (matched_label : string).

(** [for result in results: if labels[result.id] in DETER_LABELS: ...; break] *)
Fixpoint deter_loop (c : closure) (image : Image) (results remaining : list Class)
    : Py Decision :=
  match remaining with
  | [] => ret NoAction
  | result :: remaining' =>
      label <- getitem (labels c) (id result) ;;
      if list_contains label DETER_LABELS
      then playsound (args_sound c) ;;;
           save_data image results (args_storage c) "png" ;;;
           ret (Deter label)
      else deter_loop c image results remaining'
  end.

(** [user_callback(image, svg_canvas)] *)
Definition user_callback (c : closure) (image : Image) (svg_canvas : unit)
    : Py Decision :=
  start_time <- time_monotonic ;;
  let results := get_classes (interpreter c image) 1 in
  end_time <- time_monotonic ;;
  let frame := [("start_time", start_time); ("end_time", end_time)] in
  (if args_print c
   then a1 <- load_name frame "start_time" ;;
        a2 <- load_name frame "last_time" ;;
        a3 <- load_name frame "end_time" ;;
        print_results a1 a2 a3 results
   else ret tt) ;;;
  deter_loop c image results results.

(** ** app.py *)

Definition STORAGE_PATH : string := "path/to/storage".

(** [os.path.join(a, b)] *)
Definition os_path_join (a b : string) : string :=
  if PyStr.startswith b "/" then b
  else if String.eqb a "" || PyStr.endswith a "/" then a +:+ b
  else a +:+ "/" +:+ b.

(** The name under which directory [dir] lists the file at [path], if it
    lies directly in it. *)
Definition entry_name (dir path : string) : option string :=
  let prefix := os_path_join dir "" in
  if PyStr.startswith path prefix then
    let name := PyStr.drop (String.length prefix) path in
    if String.eqb name "" || PyStr.contains name "/" then None else Some name
  else None.

(** [os.listdir(dir)]: the names, in an order the caller cannot choose. *)
Definition os_listdir (dir : string) : Py (list string) :=
  fun w => (Returned (omap (entry_name dir) (map_to_list (fs w)).*1), w).

(** [os.path.exists(path)] *)
Definition os_path_exists (path : string) : Py bool :=
  fun w => (Returned (bool_decide (is_Some (fs w !! path))), w).

(** The dicts [{'image': ..., 'results': ...}] handed to the templates. *)
Record visit := Visit { visit_image : string; visit_results : pyval }.

(** The loop of [index]; [visits] is the list appended to. *)
Fixpoint index_loop (filenames : list string) (visits : list visit)
    : Py (list visit) :=
  match filenames with
  | [] => ret visits
  | filename :: rest =>
      if PyStr.endswith filename ".png" then
        let result_file := PyStr.replace filename ".png" ".json" in
        found <- os_path_exists (os_path_join STORAGE_PATH result_file) ;;
        if (found : bool) then
          results <- json_load (os_path_join STORAGE_PATH result_file) ;;
          index_loop rest (visits ++ [Visit filename results])
        else index_loop rest visits
      else index_loop rest visits
  end.

(** [index()]: the [visits] given to [render_template]. *)
Definition index : Py (list visit) :=
  filenames <- os_listdir STORAGE_PATH ;;
  index_loop filenames [].

(** [x == 'deter'] for a loaded value [x]. *)
Definition is_str (s : string) (v : pyval) : bool :=
  match v with
  | PyStr t => String.eqb t s
  | _ => false
  end.

(** ['deter' in results] for a loaded value: membership in a list, key
    of a dict, substring of a string; other values are not containers. *)
Definition contains_str (s : string) (v : pyval) : Py bool :=
  match v with
  | PyList items => ret (existsb (is_str s) items)
  | PyDict members => ret (existsb (fun kv => String.eqb (fst kv) s) members)
  | PyStr t => ret (PyStr.contains t s)
  | _ => raise TypeError
  end.

(** The loop of [review_deter_triggers]. *)
Fixpoint review_loop (filenames : list string) (triggers : list visit)
    : Py (list visit) :=
  match filenames with
  | [] => ret triggers
  | filename :: rest =>
      if PyStr.endswith filename ".json" then
        results <- json_load (os_path_join STORAGE_PATH filename) ;;
        hit <- contains_str "deter" results ;;
        if (hit : bool)
        then review_loop rest
               (triggers ++ [Visit (PyStr.replace filename ".json" ".png") results])
        else review_loop rest triggers
      else review_loop rest triggers
  end.

(** [review_deter_triggers()]: the [triggers] given to [render_template]. *)
Definition review_deter_triggers : Py (list visit) :=
  filenames <- os_listdir STORAGE_PATH ;;
  review_loop filenames [].

End Model.

(** ** Specification-side definitions *)

Section Spec.

Context {float : Type}.

(** The policy in the specification's words: take the highest-ranked
    label of the result; a member of the deterrent set gives
    [Deter label], anything else, the empty result included, [NoAction]. *)
Definition evaluate (result : list (string * float)) (deterLabels : gset string)
    : Decision :=
  match result with
  | [] => NoAction
  | (label, _) :: _ => if decide (label ∈ deterLabels) then Deter label else NoAction
  end.

(** The classification result of the specification, (label, score)
    pairs, for a list of [Class] tuples and a label file. *)
Definition named_result (labels : gmap Z string) (ranked : list (@Class float))
    : option (list (string * float)) :=
  mapM (fun c => l ← labels !! id c; Some (l, score c)) ranked.

End Spec.

(** The labels present in a result, scores and order ignored: each
    label once. *)
Definition label_set {K V : Type} `{EqDecision K} (X : list (K * V)) : list K :=
  remove_dups (map fst X).

(** The size of the intersection of the label sets of two results: the
    labels of [current] that are also labels of [previous]. *)
Definition shared_label_count {K V : Type} `{EqDecision K}
    (current previous : list (K * V)) : nat :=
  length (filter (fun l => l ∈ label_set previous) (label_set current)).

(** The difference detector in the specification's words: diverged when
    the intersection is strictly smaller than [topK]. *)
Definition hasDiverged {K V : Type} `{EqDecision K}
    (current previous : list (K * V)) (topK : Z) : bool :=
  bool_decide (Z.of_nat (shared_label_count current previous) < topK).

(** The number a string of decimal digits denotes, leading zeros
    allowed, and whether a string is made of decimal digits only. *)
Definition digit_of (ch : ascii) : N := (N_of_ascii ch - 48)%N.

Definition is_digit (ch : ascii) : bool :=
  ((48 <=? N_of_ascii ch) && (N_of_ascii ch <=? 57))%N.

Fixpoint decimal_acc (acc : N) (s : string) : N :=
  match s with
  | EmptyString => acc
  | String ch s' => decimal_acc (10 * acc + digit_of ch)%N s'
  end.

Definition decimal_value (s : string) : N := decimal_acc 0 s.

Fixpoint all_digits (s : string) : bool :=
  match s with
  | EmptyString => true
  | String ch s' => is_digit ch && all_digits s'
  end.

(** A sequence of persist operations: [save_data] once per frame. *)
Fixpoint save_each {Image float : Type} (frames : list (Image * list (@Class float)))
    (path : string) : @Py Image float unit :=
  match frames with
  | [] => ret tt
  | (image, results) :: rest =>
      bind (save_data image results path "png") (fun _ => save_each rest path)
  end.

(** The tags [save_data] assigned, read off the calls it made. *)
Fixpoint logged_tags {Image float : Type} (events : list (@event Image float))
    : list string :=
  match events with
  | [] => []
  | LoggingInfo tag _ :: rest => tag :: logged_tags rest
  | _ :: rest => logged_tags rest
  end.

(** Whether every character of a string passes a test; the characters
    a tag is made of. *)
Fixpoint all_chars (P : ascii -> bool) (s : string) : bool :=
  match s with
  | EmptyString => true
  | String ch s' => P ch && all_chars P s'
  end.

Definition tag_char (ch : ascii) : bool := is_digit ch || Ascii.eqb ch "-".

(** What the loop of [index] does with one file name of the listing, on
    the files of the store. *)
Definition index_entry {Image float : Type} (files : gmap string (@content Image float))
    (filename : string) : outcome (option (@visit float)) :=
  if PyStr.endswith filename ".png" then
    match files !! os_path_join STORAGE_PATH (PyStr.replace filename ".png" ".json") with
    | None => Returned None
    | Some (JsonText doc) => Returned (Some (Visit filename (json_decode doc)))
    | Some (Png _) =>
        Raised (ValueError (os_path_join STORAGE_PATH (PyStr.replace filename ".png" ".json")))
    end
  else Returned None.

(** The names [os.listdir(STORAGE_PATH)] returns for a store. *)
Definition listing {Image float : Type} (files : gmap string (@content Image float))
    : list string :=
  omap (entry_name STORAGE_PATH) (map_to_list files).*1.

(** The world after [n] more readings of the clock. *)
Definition tick {Image float : Type} (n : nat) (w : @world Image float)
    : @world Image float :=
  {| fs := fs w; trace := trace w; clock := clock w; reads := (n + reads w)%nat |}.

(** The calls [save_data] makes for a frame stored at clock reading [ms]. *)
Definition save_events {Image float : Type} (image : Image)
    (results : list (@Class float)) (path : string) (ms : Z)
    : list (@event Image float) :=
  let tag := PyStr.format_010d ms in
  [ ImageSave (path +:+ "/img-" +:+ tag +:+ ".png") image;
    Stdout (FrameSaved (path +:+ "/img-" +:+ tag +:+ ".png"));
    LoggingInfo tag results;
    JsonDump (path +:+ "/img-" +:+ tag +:+ ".json") (json_of_results results) ].

(** The store after [save_data] has stored a frame at clock reading [ms]. *)
Definition save_files {Image float : Type} (image : Image)
    (results : list (@Class float)) (path : string) (ms : Z)
    (files : gmap string (@content Image float)) : gmap string (@content Image float) :=
  let tag := PyStr.format_010d ms in
  <[path +:+ "/img-" +:+ tag +:+ ".json" := JsonText (json_of_results results)]>
    (<[path +:+ "/img-" +:+ tag +:+ ".png" := Png image]> files).

(** A record of the form [{label: string, score: number}], and a
    sidecar document made of such records, as the specification
    describes the result file. *)
Definition is_label_score_record {float : Type} (j : @json float) : bool :=
  match j with
  | JObject [(k1, JString _); (k2, JInt _)]
  | JObject [(k1, JString _); (k2, JFloat _)] =>
      String.eqb k1 "label" && String.eqb k2 "score"
  | _ => false
  end.

Definition is_label_score_array {float : Type} (j : @json float) : bool :=
  match j with
  | JArray items => forallb is_label_score_record items
  | _ => false
  end.

(** ** Further observers of the programs *)

(** [bool(s)] for a string [s]: only the empty string is false. *)
Definition bool_of_str (s : string) : bool := negb (String.eqb s "").

(** The value [main]'s parser gives [args.print]: [default=False] when
    the option is absent, [type=bool] applied to the string given with
    [--print] otherwise. *)
Definition parsed_print (given : option string) : bool :=
  match given with
  | None => false
  | Some s => bool_of_str s
  end.

(** Every image of the store has its result file, and every result file
    its image. *)
Definition paired {Image float : Type} (files : gmap string (@content Image float)) : Prop :=
  forall stem : string,
    is_Some (files !! (stem +:+ ".png")) <-> is_Some (files !! (stem +:+ ".json")).

(** ['deter' in v] without the world: the answer, or the [TypeError] of
    a value that is no container. *)
Definition holds_str {float : Type} (s : string) (v : @pyval float) : outcome bool :=
  match v with
  | PyList items => Returned (existsb (is_str s) items)
  | PyDict members => Returned (existsb (fun kv => String.eqb (fst kv) s) members)
  | PyStr t => Returned (PyStr.contains t s)
  | _ => Raised TypeError
  end.


(** What the loop of [review_deter_triggers] does with one file name of
    the listing, on the files of the store. *)
Definition review_entry {Image float : Type} (files : gmap string (@content Image float))
    (filename : string) : outcome (option (@visit float)) :=
  if PyStr.endswith filename ".json" then
    match files !! os_path_join STORAGE_PATH filename with
    | None => Raised (FileNotFoundError (os_path_join STORAGE_PATH filename))
    | Some (Png _) => Raised (ValueError (os_path_join STORAGE_PATH filename))
    | Some (JsonText doc) =>
        match holds_str "deter" (json_decode doc) with
        | Raised e => Raised e
        | Returned true =>
            Returned (Some (Visit (PyStr.replace filename ".json" ".png") (json_decode doc)))
        | Returned false => Returned None
        end
    end
  else Returned None.

(** A loop that appends what each name yields and stops at the first
    name that raises. *)
Fixpoint collect {A : Type} (entry : string -> outcome (option A)) (names : list string)
    : outcome (list A) :=
  match names with
  | [] => Returned []
  | n :: rest =>
      match entry n with
      | Raised e => Raised e
      | Returned o =>
          match collect entry rest with
          | Raised e => Raised e
          | Returned vs => Returned (option_list o ++ vs)
          end
      end
  end.

(** ** A feeder to run: three frames, a label file, two clocks *)

Module Demo.

Definition label_file : gmap Z string :=
  <[3 := "cat"]> (<[7 := "sparrow"]> (<[9 := "Cat"]> ∅)).

(** The frames are named by what they show; scores are rationals. *)
Definition classify (image : string) : list (@Class Q) :=
  if String.eqb image "a cat" then [mkClass 3 (92 # 100)%Q]
  else if String.eqb image "a sparrow" then [mkClass 7 (81 # 100)%Q]
  else if String.eqb image "a Cat" then [mkClass 9 (92 # 100)%Q]
  else [].

Definition feeder (print_flag : bool) : @closure string Q :=
  Closure print_flag "deter.wav" STORAGE_PATH label_file classify.

(** A clock that advances one millisecond per reading, and one that stays
    within the same millisecond. *)
Definition boot : @world string Q :=
  World ∅ [] (fun n => 12343 + Z.of_nat n) 0.

Definition stalled : @world string Q :=
  World ∅ [] (fun _ => 12345) 0.

End Demo.

(** ** More to run: a class the label file does not know, a faint cat,
    and a store with a flagged file *)

Module More.

(** An interpreter whose best class has no line in the label file. *)
Definition stranger : @closure string Q :=
  Closure false "deter.wav" STORAGE_PATH Demo.label_file
    (fun _ => [mkClass 42 (50 # 100)%Q]).

(** Another feeder: other sound, other directory, and a cat seen with a
    low score ahead of a sparrow. *)
Definition faint : @closure string Q :=
  Closure false "horn.wav" "elsewhere" Demo.label_file
    (fun _ => [mkClass 3 (1 # 100)%Q; mkClass 7 (1 # 200)%Q]).

(** A store with one result file that holds the string the review looks
    for, and no image. *)
Definition flagged : @world string Q :=
  World (<["path/to/storage/flag.json" := JsonText (JArray [JString "deter"])]> ∅)
        [] (fun _ => 0) 0.

End More.

(** * Proofs *)

(** *** Strings *)

Lemma str_app_cons a (s t : string) : String a s +:+ t = String a (s +:+ t).
Proof. reflexivity. Qed.

Lemma str_app_assoc (s t u : string) : (s +:+ t) +:+ u = s +:+ (t +:+ u).
Proof.
  induction s as [|a s IH]; [reflexivity|]. rewrite !str_app_cons, IH. reflexivity.
Qed.

Lemma str_length_app (s t : string) :
  String.length (s +:+ t) = (String.length s + String.length t)%nat.
Proof.
  induction s as [|a s IH]; [reflexivity|]. rewrite str_app_cons. cbn. rewrite IH.
  reflexivity.
Qed.

Lemma startswith_spec s p : PyStr.startswith s p = true <-> exists r, s = p +:+ r.
Proof.
  revert s. induction p as [|a p IH]; intros s.
  - split; [intros _; exists s; reflexivity|intros _; destruct s; reflexivity].
  - destruct s as [|b s]; cbn.
    + split; [discriminate|intros [r Hr]; discriminate Hr].
    + destruct (Ascii.eqb_spec a b) as [->|Hab].
      * rewrite IH. split; intros [r Hr]; exists r.
        -- rewrite str_app_cons, Hr. reflexivity.
        -- rewrite str_app_cons in Hr. congruence.
      * split; [discriminate|]. intros [r Hr]. rewrite str_app_cons in Hr. congruence.
Qed.

Lemma drop_app p s : PyStr.drop (String.length p) (p +:+ s) = s.
Proof. induction p as [|a p IH]; [destruct s; reflexivity|exact IH]. Qed.

Lemma endswith_spec s suffix : PyStr.endswith s suffix = true <-> exists p, s = p +:+ suffix.
Proof.
  induction s as [|a s IH]; cbn [PyStr.endswith].
  - destruct (String.eqb_spec "" suffix) as [<-|Hne].
    + split; [intros _; exists ""; reflexivity|reflexivity].
    + split; [discriminate|]. intros [[|b p] Hp]; [|discriminate].
      change ("" +:+ suffix) with suffix in Hp. contradiction.
  - destruct (String.eqb_spec (String a s) suffix) as [<-|Hne].
    + split; [intros _; exists ""; reflexivity|reflexivity].
    + rewrite IH. split.
      * intros [p ->]. exists (String a p). reflexivity.
      * intros [[|b p] Hp]; [change ("" +:+ suffix) with suffix in Hp; contradiction|].
        rewrite str_app_cons in Hp. injection Hp as _ ->. exists p. reflexivity.
Qed.

Lemma png_json_clash p q : p +:+ ".png" <> q +:+ ".json".
Proof.
  revert q. induction p as [|a p IH]; intros q Heq.
  - destruct q as [|b q]; [discriminate|].
    apply (f_equal String.length) in Heq.
    rewrite !str_length_app in Heq. cbn in Heq. lia.
  - destruct q as [|b q].
    + pose proof (f_equal String.length Heq) as Hlen.
      rewrite !str_length_app in Hlen. cbn in Hlen.
      destruct p; [discriminate|cbn in Hlen; lia].
    + rewrite !str_app_cons in Heq. injection Heq as _ Heq. exact (IH _ Heq).
Qed.

Lemma startswith_other (a b : ascii) s p :
  a <> b -> PyStr.startswith (String b s) (String a p) = false.
Proof. intros Hab. cbn. destruct (Ascii.eqb_spec a b); [contradiction|reflexivity]. Qed.

Lemma replace_scan_nil old new n : PyStr.replace_scan old new n "" = "".
Proof. destruct n; reflexivity. Qed.

(** A name with no dot before its [.png] extension gets [.json] for it. *)
Lemma replace_plain_png pre n :
  all_chars (fun ch => negb (Ascii.eqb ch ".")) pre = true ->
  (String.length (pre +:+ ".png") <= n)%nat ->
  PyStr.replace_scan ".png" ".json" n (pre +:+ ".png") = pre +:+ ".json".
Proof.
  revert n. induction pre as [|a pre IH]; intros n Hpre Hn;
    rewrite str_length_app in Hn; cbn in Hn.
  - destruct n as [|n]; [lia|]. cbn. rewrite replace_scan_nil. reflexivity.
  - cbn in Hpre. apply andb_true_iff in Hpre as [Ha Hpre].
    rewrite !str_app_cons in *. destruct n as [|n]; [lia|].
    cbn [PyStr.replace_scan]. rewrite startswith_other.
    + rewrite IH; [reflexivity|exact Hpre|rewrite str_length_app; cbn; lia].
    + intros <-. discriminate Ha.
Qed.

(** Whatever comes before it, a final [.png] is replaced. *)
Lemma replace_final_png n s :
  (String.length s <= n)%nat ->
  (exists p, s = p +:+ ".png") ->
  exists q, PyStr.replace_scan ".png" ".json" n s = q +:+ ".json".
Proof.
  revert s. induction n as [|n IH]; intros s Hn [p Hp].
  - subst. rewrite str_length_app in Hn. cbn in Hn. lia.
  - destruct s as [|ch s]; [destruct p; discriminate|].
    cbn [PyStr.replace_scan].
    destruct (PyStr.startswith (String ch s) ".png") eqn:Hstart.
    + apply startswith_spec in Hstart as [r Hr]. rewrite Hr.
      change (String.length ".png") with (String.length (String "." (String "p" (String "n" (String "g" ""))))).
      rewrite drop_app.
      destruct r as [|c r].
      * exists "". rewrite replace_scan_nil. reflexivity.
      * destruct (IH (String c r)) as [q Hq].
        -- rewrite Hr, str_length_app in Hn. cbn in Hn. cbn. lia.
        -- rewrite Hr in Hp.
           destruct p as [|p0 p]; [discriminate|].
           destruct p as [|p1 p]; [discriminate|].
           destruct p as [|p2 p]; [discriminate|].
           destruct p as [|p3 p]; [discriminate|].
           rewrite !str_app_cons in Hp. injection Hp as _ _ _ _ Hp.
           exists p. exact Hp.
        -- exists (".json" +:+ q). rewrite Hq, str_app_assoc. reflexivity.
    + destruct p as [|p0 p]; [cbn in Hp; rewrite Hp in Hstart; discriminate|].
      rewrite str_app_cons in Hp. injection Hp as -> ->.
      destruct (IH (p +:+ ".png")) as [q Hq]; [cbn in Hn; lia|exists p; reflexivity|].
      exists (String p0 q). rewrite Hq. reflexivity.
Qed.

Lemma contains_slash_false (P : ascii -> bool) s :
  P "/"%char = false -> all_chars P s = true -> PyStr.contains s "/" = false.
Proof.
  intros HP. induction s as [|a s IH]; intros Hs; [reflexivity|].
  cbn in Hs. apply andb_true_iff in Hs as [Ha Hs].
  cbn [PyStr.contains]. rewrite startswith_other; [exact (IH Hs)|].
  intros <-. congruence.
Qed.

(** *** The tag format *)

Section TagFormat.

Local Open Scope N_scope.

Lemma pretty_N_go_app x s : pretty_N_go x s = pretty_N_go x "" +:+ s.
Proof.
  revert s. induction (N.lt_wf_0 x) as [x _ IH]; intros s.
  destruct (decide (0 < x)) as [Hx|Hx].
  - rewrite !(pretty_N_go_step x) by exact Hx.
    assert (x `div` 10 < x) as Hdiv by (apply N.div_lt; lia).
    rewrite (IH _ Hdiv (String _ s)), (IH _ Hdiv (String _ "")).
    rewrite str_app_assoc. reflexivity.
  - assert (x = 0) as -> by lia. reflexivity.
Qed.

Lemma pretty_N_go_snoc x :
  0 < x ->
  pretty_N_go x "" = pretty_N_go (x `div` 10) "" +:+ String (pretty_N_char (x `mod` 10)) "".
Proof. intros Hx. rewrite pretty_N_go_step by exact Hx. apply pretty_N_go_app. Qed.

Lemma decimal_acc_app acc s t :
  decimal_acc acc (s +:+ t) = decimal_acc (decimal_acc acc s) t.
Proof.
  revert acc. induction s as [|a s IH]; intros acc; [reflexivity|].
  rewrite str_app_cons. cbn. apply IH.
Qed.

Lemma all_digits_app s t : all_digits (s +:+ t) = all_digits s && all_digits t.
Proof.
  induction s as [|a s IH]; [reflexivity|].
  rewrite str_app_cons. cbn. rewrite IH, andb_assoc. reflexivity.
Qed.

Lemma pretty_N_char_digit d :
  d < 10 -> digit_of (pretty_N_char d) = d /\ is_digit (pretty_N_char d) = true.
Proof.
  intros Hd.
  assert (d = 0 ∨ d = 1 ∨ d = 2 ∨ d = 3 ∨ d = 4 ∨ d = 5 ∨ d = 6 ∨ d = 7 ∨ d = 8 ∨ d = 9)
    as Hc by lia.
  repeat (destruct Hc as [->|Hc]; [split; reflexivity|]). subst. split; reflexivity.
Qed.

Lemma pretty_N_go_digits x :
  decimal_value (pretty_N_go x "") = x /\ all_digits (pretty_N_go x "") = true.
Proof.
  induction (N.lt_wf_0 x) as [x _ IH].
  destruct (decide (0 < x)) as [Hx|Hx].
  - rewrite pretty_N_go_snoc by exact Hx.
    destruct (IH (x `div` 10)) as [IHv IHd]; [apply N.div_lt; lia|].
    destruct (pretty_N_char_digit (x `mod` 10)) as [Hv Hd]; [apply N.mod_lt; lia|].
    unfold decimal_value in *. rewrite decimal_acc_app, IHv, all_digits_app, IHd.
    cbn [decimal_acc all_digits]. rewrite Hv, Hd. split; [|reflexivity].
    rewrite (N.div_mod x 10) at 3 by lia. lia.
  - assert (x = 0) as -> by lia. split; reflexivity.
Qed.

Lemma pretty_N_go_length x k :
  (String.length (pretty_N_go x "") <= k)%nat <-> x < 10 ^ N.of_nat k.
Proof.
  revert x. induction k as [|k IH]; intros x.
  - destruct (decide (0 < x)) as [Hx|Hx].
    + rewrite pretty_N_go_snoc, str_length_app by exact Hx. cbn [String.length N.of_nat].
      rewrite N.pow_0_r. lia.
    + assert (x = 0) as -> by lia. rewrite pretty_N_go_0. cbn. lia.
  - destruct (decide (0 < x)) as [Hx|Hx].
    + rewrite pretty_N_go_snoc, str_length_app by exact Hx. cbn [String.length].
      rewrite Nat2N.inj_succ, N.pow_succ_r'.
      specialize (IH (x `div` 10)).
      assert (x `div` 10 < 10 ^ N.of_nat k <-> x < 10 * 10 ^ N.of_nat k) as <-.
      { split; intros Hlt.
        - pose proof (N.div_mod x 10). pose proof (N.mod_lt x 10). lia.
        - apply N.Div0.div_lt_upper_bound. exact Hlt. }
      rewrite <- IH. lia.
    + assert (x = 0) as -> by lia. rewrite pretty_N_go_0. cbn [String.length].
      assert (0 < 10 ^ N.of_nat (S k)) by (apply N.neq_0_lt_0, N.pow_nonzero; lia). lia.
Qed.

(** The decimal numeral of a natural number: digits only, denoting the
    number, and as long as the number is large. *)
Lemma pretty_N_numeral (n : N) :
  decimal_value (pretty n) = n
  /\ all_digits (pretty n) = true
  /\ (1 <= String.length (pretty n))%nat
  /\ forall k, (1 <= k)%nat -> (String.length (pretty n) <= k)%nat <-> n < 10 ^ N.of_nat k.
Proof.
  unfold pretty, pretty_N. case_decide as Hn.
  - subst. split; [reflexivity|]. split; [reflexivity|]. split; [cbn; lia|].
    intros k Hk. cbn [String.length]. split; [|intros _; lia].
    intros _. apply N.neq_0_lt_0, N.pow_nonzero. lia.
  - destruct (pretty_N_go_digits n) as [Hv Hd].
    split; [exact Hv|]. split; [exact Hd|]. split.
    + destruct (Nat.le_gt_cases 1 (String.length (pretty_N_go n ""))) as [Hle|Hlt];
        [exact Hle|].
      assert (String.length (pretty_N_go n "") <= 0)%nat as H0 by lia.
      apply pretty_N_go_length in H0. cbn in H0. lia.
    + intros k _. apply pretty_N_go_length.
Qed.

Lemma zeros_value k s : decimal_value (PyStr.zeros k +:+ s) = decimal_value s.
Proof. induction k as [|k IH]; [reflexivity|]. exact IH. Qed.

Lemma zeros_digits k : all_digits (PyStr.zeros k) = true.
Proof. induction k as [|k IH]; [reflexivity|]. exact IH. Qed.

Lemma zeros_length k : String.length (PyStr.zeros k) = k.
Proof. induction k as [|k IH]; [reflexivity|]. cbn. rewrite IH. reflexivity. Qed.

Lemma format_010d_nonneg (ms : Z) :
  (0 <= ms)%Z -> PyStr.format_010d ms = PyStr.zero_pad 10 (pretty (Z.to_N ms)).
Proof. destruct ms as [|p|p]; [reflexivity|reflexivity|lia]. Qed.

(** The tag of a non-negative reading: decimal digits that denote the
    reading, at least ten of them, and exactly ten below [10^10]. *)
Lemma format_010d_tag (ms : Z) :
  (0 <= ms)%Z ->
  all_digits (PyStr.format_010d ms) = true
  /\ decimal_value (PyStr.format_010d ms) = Z.to_N ms
  /\ (10 <= String.length (PyStr.format_010d ms))%nat
  /\ (String.length (PyStr.format_010d ms) = 10%nat <-> (ms < 10 ^ 10)%Z).
Proof.
  intros Hms. rewrite format_010d_nonneg by exact Hms. unfold PyStr.zero_pad.
  destruct (pretty_N_numeral (Z.to_N ms)) as (Hv & Hd & H1 & Hlen).
  rewrite all_digits_app, zeros_digits, Hd, zeros_value, Hv, str_length_app, zeros_length.
  split; [reflexivity|]. split; [reflexivity|]. split; [lia|]. split.
  - intros Heq. assert (String.length (pretty (Z.to_N ms)) <= 10)%nat as Hle by lia.
    apply Hlen in Hle; [|lia]. change (10 ^ N.of_nat 10) with (Z.to_N (10 ^ 10)) in Hle. lia.
  - intros Hlt. assert (Z.to_N ms < 10 ^ N.of_nat 10) as Hlt'.
    { change (10 ^ N.of_nat 10) with (Z.to_N (10 ^ 10)). lia. }
    apply Hlen in Hlt'; lia.
Qed.

Lemma format_010d_inj (ms1 ms2 : Z) :
  (0 <= ms1)%Z -> (0 <= ms2)%Z ->
  PyStr.format_010d ms1 = PyStr.format_010d ms2 -> ms1 = ms2.
Proof.
  intros H1 H2 Heq.
  destruct (format_010d_tag ms1 H1) as (_ & Hv1 & _).
  destruct (format_010d_tag ms2 H2) as (_ & Hv2 & _).
  rewrite Heq, Hv2 in Hv1. lia.
Qed.

End TagFormat.

Section Proofs.

Context {Image float : Type}.
Implicit Types (w : @world Image float) (c : @closure Image float).
Implicit Types (results ranked : list (@Class float)).

(** *** Running the callback *)

Lemma save_data_run image results path w :
  save_data image results path "png" w =
  (Returned tt,
   {| fs := save_files image results path (clock w (reads w)) (fs w);
      trace := trace w ++ save_events image results path (clock w (reads w));
      clock := clock w;
      reads := S (reads w) |}).
Proof.
  unfold save_data, save_files, save_events, bind, time_monotonic, image_save,
    json_dump, print, emit, write_file, bind. simpl.
  repeat rewrite <- app_assoc. reflexivity.
Qed.

Lemma user_callback_run c image w :
  user_callback c image tt w =
  if args_print c
  then (Raised (NameError "last_time"), tick 2 w)
  else deter_loop c image (get_classes (interpreter c image) 1)
         (get_classes (interpreter c image) 1) (tick 2 w).
Proof.
  unfold user_callback, bind, time_monotonic, tick. simpl.
  destruct (args_print c); reflexivity.
Qed.

Lemma deter_loop_cons c image results result remaining w :
  deter_loop c image results (result :: remaining) w =
  match labels c !! id result with
  | None => (Raised (KeyError (id result)), w)
  | Some label =>
      if list_contains label DETER_LABELS
      then (Returned (Deter label),
            {| fs := save_files image results (args_storage c) (clock w (reads w)) (fs w);
               trace := trace w ++ Playsound (args_sound c)
                          :: save_events image results (args_storage c) (clock w (reads w));
               clock := clock w;
               reads := S (reads w) |})
      else deter_loop c image results remaining w
  end.
Proof.
  cbn [deter_loop]. unfold bind at 1, getitem.
  destruct (labels c !! id result) as [label|]; [|reflexivity].
  unfold ret at 1. destruct (list_contains label DETER_LABELS); [|reflexivity].
  unfold bind, playsound, emit. rewrite save_data_run. cbn [fs trace clock reads].
  rewrite <- app_assoc. reflexivity.
Qed.

Lemma list_contains_spec (x : string) (xs : list string) :
  list_contains x xs = true <-> x ∈ xs.
Proof.
  unfold list_contains. rewrite existsb_exists, list_elem_of_In. split.
  - intros (y & Hy & Heq). apply String.eqb_eq in Heq. subst. exact Hy.
  - intros Hx. exists x. split; [exact Hx | apply String.eqb_refl].
Qed.

(** The callback looks at the best class only: [get_classes] is asked
    for one. *)
Lemma user_callback_top c image w :
  args_print c = false ->
  user_callback c image tt w =
  match interpreter c image with
  | [] => (Returned NoAction, tick 2 w)
  | top :: _ =>
      deter_loop c image [top] [top] (tick 2 w)
  end.
Proof.
  intros Hp. rewrite user_callback_run, Hp. unfold get_classes.
  destruct (interpreter c image) as [|top rest]; reflexivity.
Qed.

Lemma deter_loop_single c image results result w :
  deter_loop c image results [result] w =
  match labels c !! id result with
  | None => (Raised (KeyError (id result)), w)
  | Some label =>
      if list_contains label DETER_LABELS
      then (Returned (Deter label),
            {| fs := save_files image results (args_storage c) (clock w (reads w)) (fs w);
               trace := trace w ++ Playsound (args_sound c)
                          :: save_events image results (args_storage c) (clock w (reads w));
               clock := clock w;
               reads := S (reads w) |})
      else (Returned NoAction, w)
  end.
Proof. rewrite deter_loop_cons. reflexivity. Qed.

(** Whatever the loop is given, it leaves the world alone unless it
    returns [Deter]. *)
Lemma deter_loop_quiet c image results remaining w :
  (forall label, (deter_loop c image results remaining w).1 <> Returned (Deter label)) ->
  (deter_loop c image results remaining w).2 = w.
Proof.
  induction remaining as [|result remaining IH]; [reflexivity|].
  rewrite deter_loop_cons.
  destruct (labels c !! id result) as [label|]; [|reflexivity].
  destruct (list_contains label DETER_LABELS); [|exact IH].
  intros Hno. exfalso. exact (Hno label eq_refl).
Qed.

(** A run of the loop that returns [Deter] matched a label of the
    deterrent list. *)
Lemma deter_loop_matched c image results remaining w label :
  (deter_loop c image results remaining w).1 = Returned (Deter label) ->
  label ∈ DETER_LABELS.
Proof.
  induction remaining as [|result remaining IH]; [discriminate|].
  rewrite deter_loop_cons.
  destruct (labels c !! id result) as [l|]; [|discriminate].
  destruct (list_contains l DETER_LABELS) eqn:Hl; [|exact IH].
  cbn. intros [= <-]. apply list_contains_spec. exact Hl.
Qed.

(** C1. With printing off, the callback's decision on a frame is the
    policy's: [Deter label] when the first (best) label of the frame's
    classification result is in the deterrent list, [NoAction] for every
    other result, the empty one included. *)
Theorem user_callback_decision c image w named :
  args_print c = false ->
  named_result (labels c) (interpreter c image) = Some named ->
  (user_callback c image tt w).1
    = Returned (evaluate named (list_to_set DETER_LABELS))
  /\ match named with
     | [] => (user_callback c image tt w).1 = Returned NoAction
     | (label, _) :: _ =>
         (label ∈ DETER_LABELS ->
            (user_callback c image tt w).1 = Returned (Deter label))
         /\ (label ∉ DETER_LABELS ->
            (user_callback c image tt w).1 = Returned NoAction)
     end.
Proof.
  intros Hp Hnamed. rewrite (user_callback_top _ _ _ Hp).
  unfold named_result in Hnamed.
  destruct (interpreter c image) as [|top rest].
  - cbn in Hnamed. injection Hnamed as <-. split; reflexivity.
  - cbn in Hnamed. destruct (labels c !! id top) as [label|] eqn:Htop; [|discriminate].
    cbn in Hnamed. destruct (mapM _ rest) as [named'|]; [|discriminate].
    cbn in Hnamed. injection Hnamed as <-.
    rewrite deter_loop_single, Htop. cbn [evaluate].
    destruct (list_contains label DETER_LABELS) eqn:Hl.
    + apply list_contains_spec in Hl.
      destruct (decide (label ∈ (list_to_set DETER_LABELS : gset string))) as [_|Hn];
        [|exfalso; apply Hn, elem_of_list_to_set, Hl].
      split; [reflexivity|]. split; [reflexivity|]. intros Hn. contradiction.
    + assert (label ∉ DETER_LABELS) as Hn.
      { intros Hin. apply list_contains_spec in Hin. congruence. }
      destruct (decide (label ∈ (list_to_set DETER_LABELS : gset string))) as [Hin|_];
        [exfalso; apply Hn; apply elem_of_list_to_set in Hin; exact Hin|].
      split; [reflexivity|]. split; [|reflexivity]. intros Hin. contradiction.
Qed.

(** C5. On a frame whose decision is [Deter], the callback calls the
    audio sink first and the persistence sink next, once each, with the
    frame's image and the whole result list it classified; and the loop
    stops at the first matching label: what follows it is never looked
    at. *)
Theorem deter_sounds_then_saves c image w label :
  (user_callback c image tt w).1 = Returned (Deter label) ->
  (user_callback c image tt w).2 =
    {| fs := save_files image (get_classes (interpreter c image) 1)
               (args_storage c) (clock w (2 + reads w)) (fs w);
       trace := trace w ++ Playsound (args_sound c)
                  :: save_events image (get_classes (interpreter c image) 1)
                       (args_storage c) (clock w (2 + reads w));
       clock := clock w;
       reads := (3 + reads w)%nat |}
  /\ forall results before result after w',
       Forall (fun r => exists l, labels c !! id r = Some l /\ l ∉ DETER_LABELS) before ->
       labels c !! id result = Some label ->
       deter_loop c image results (before ++ result :: after) w' =
       (Returned (Deter label),
        {| fs := save_files image results (args_storage c) (clock w' (reads w')) (fs w');
           trace := trace w' ++ Playsound (args_sound c)
                      :: save_events image results (args_storage c) (clock w' (reads w'));
           clock := clock w';
           reads := S (reads w') |}).
Proof.
  intros Hd.
  assert (label ∈ DETER_LABELS) as Hlabel.
  { rewrite user_callback_run in Hd. destruct (args_print c); [discriminate|].
    eapply deter_loop_matched, Hd. }
  split.
  - rewrite user_callback_run in Hd |- *.
    destruct (args_print c); [discriminate|].
    unfold get_classes in *. destruct (interpreter c image) as [|top rest]; [discriminate|].
    cbn [firstn] in *. rewrite deter_loop_single in Hd |- *.
    destruct (labels c !! id top) as [l|]; [|discriminate].
    destruct (list_contains l DETER_LABELS); [|discriminate]. reflexivity.
  - intros results before result after w' Hbefore Hresult.
    induction Hbefore as [|r before (l & Hl & Hn) _ IH]; cbn [app].
    + rewrite deter_loop_cons, Hresult.
      apply list_contains_spec in Hlabel. rewrite Hlabel. reflexivity.
    + rewrite deter_loop_cons, Hl.
      destruct (list_contains l DETER_LABELS) eqn:Hc; [|exact IH].
      apply list_contains_spec in Hc. contradiction.
Qed.

(** C7. A label triggers only when it is, character for character, one
    of the configured labels: "Cat" does not match "cat", and a part of a
    configured label does not match it. *)
Theorem deter_match_is_string_equality :
  (forall (label : string) (configured : list string),
     list_contains label configured = true <->
     exists d, d ∈ configured /\ label = d)
  /\ list_contains "cat" DETER_LABELS = true
  /\ list_contains "Cat" DETER_LABELS = false
  /\ list_contains "fox squirrel" DETER_LABELS = false
  /\ list_contains "Sciurus niger" DETER_LABELS = false
  /\ (forall c image w label,
        (user_callback c image tt w).1 = Returned (Deter label) ->
        label ∈ DETER_LABELS
        /\ exists top rest, interpreter c image = top :: rest
                            /\ labels c !! id top = Some label).
Proof.
  split.
  { intros label configured. rewrite list_contains_spec. split.
    - intros H. exists label. split; [exact H|reflexivity].
    - intros (d & Hd & ->). exact Hd. }
  do 4 (split; [reflexivity|]).
  intros c image w label Hd. rewrite user_callback_run in Hd.
  destruct (args_print c); [discriminate|]. split.
  - eapply deter_loop_matched, Hd.
  - unfold get_classes in Hd.
    destruct (interpreter c image) as [|top rest]; [discriminate|].
    cbn [firstn] in Hd. rewrite deter_loop_single in Hd.
    exists top, rest. split; [reflexivity|].
    destruct (labels c !! id top) as [l|]; [|discriminate].
    destruct (list_contains l DETER_LABELS); [|discriminate].
    cbn in Hd. congruence.
Qed.

(** C8. On a frame whose decision is [NoAction] the callback has no
    effect beyond reading the clock twice: no call reaches the audio sink
    or the persistence sink, and the store is unchanged. *)
Theorem no_action_no_effects c image w :
  (user_callback c image tt w).1 = Returned NoAction ->
  (user_callback c image tt w).2 = tick 2 w
  /\ trace (user_callback c image tt w).2 = trace w
  /\ fs (user_callback c image tt w).2 = fs w.
Proof.
  intros Hd.
  assert ((user_callback c image tt w).2 = tick 2 w) as ->; [|repeat split].
  rewrite user_callback_run in Hd |- *.
  destruct (args_print c); [reflexivity|].
  apply deter_loop_quiet. intros label Hl. rewrite Hl in Hd. discriminate.
Qed.

(** C9. With the print flag on, the callback raises [NameError] for
    [last_time], a name no scope it can see binds, after the two clock
    readings and before the loop that decides and acts: nothing is
    played or stored, whatever the frame shows. *)
Theorem print_flag_raises_name_error c image w :
  args_print c = true ->
  user_callback c image tt w = (Raised (NameError "last_time"), tick 2 w)
  /\ ("last_time" ∉ callback_locals ++ main_locals ++ module_globals)
  /\ trace (user_callback c image tt w).2 = trace w
  /\ fs (user_callback c image tt w).2 = fs w.
Proof.
  intros Hp. rewrite user_callback_run, Hp. repeat split.
  rewrite list_elem_of_In. cbn. intros H.
  repeat (destruct H as [H|H]; [discriminate H|]). exact H.
Qed.

(** *** Tags *)

Lemma logged_tags_app (l l' : list (@event Image float)) :
  logged_tags (l ++ l') = logged_tags l ++ logged_tags l'.
Proof.
  induction l as [|ev l IH]; [reflexivity|].
  destruct ev; cbn; rewrite IH; reflexivity.
Qed.

Lemma save_each_run (frames : list (Image * list (@Class float))) path w :
  (save_each frames path w).1 = Returned tt
  /\ clock (save_each frames path w).2 = clock w
  /\ reads (save_each frames path w).2 = (length frames + reads w)%nat
  /\ logged_tags (trace (save_each frames path w).2)
     = logged_tags (trace w)
       ++ map (fun i => PyStr.format_010d (clock w i)) (seq (reads w) (length frames)).
Proof.
  revert w. induction frames as [|[image results] frames IH]; intros w.
  - cbn. rewrite app_nil_r. repeat split.
  - cbn [save_each]. unfold bind. rewrite save_data_run.
    match goal with |- context [save_each frames path ?w1] =>
      destruct (IH w1) as (Hr & Hc & Hn & Ht) end.
    cbn [clock reads trace] in Hc, Hn, Ht.
    split; [exact Hr|]. split; [exact Hc|]. split; [rewrite Hn; cbn; lia|].
    rewrite Ht, logged_tags_app. cbn [logged_tags save_events length seq map].
    rewrite <- app_assoc. reflexivity.
Qed.

Lemma NoDup_map_inj_on {A B : Type} (f : A -> B) (l : list A) :
  (forall x y, x ∈ l -> y ∈ l -> f x = f y -> x = y) ->
  NoDup l -> NoDup (map f l).
Proof.
  intros Hinj Hnd. induction Hnd as [|x l Hx Hnd IH]; [constructor|].
  cbn. constructor.
  - intros Hin. apply (list_elem_of_fmap f) in Hin as (y & Heq & Hy).
    apply Hinj in Heq; [subst; contradiction|left|right; exact Hy].
  - apply IH. intros y z Hy Hz. apply Hinj; right; assumption.
Qed.

(** C6, in the form the code satisfies. A visit's tag is its clock reading in milliseconds
    written in decimal and padded with zeros to at least ten digits,
    exactly ten below [10^10]; the image and the result file are named
    [img-<tag>.png] and [img-<tag>.json]; and the tags of a sequence of
    persist operations are pairwise distinct when the readings are. *)
Theorem tags_are_padded_readings :
  (forall ms, 0 <= ms ->
     all_digits (PyStr.format_010d ms) = true
     /\ decimal_value (PyStr.format_010d ms) = Z.to_N ms
     /\ (10 <= String.length (PyStr.format_010d ms))%nat
     /\ (String.length (PyStr.format_010d ms) = 10%nat <-> ms < 10 ^ 10))
  /\ (forall (image : Image) (results : list (@Class float)) path w,
        fs (save_data image results path "png" w).2
        = <[path +:+ "/img-" +:+ PyStr.format_010d (clock w (reads w)) +:+ ".json"
              := JsonText (json_of_results results)]>
            (<[path +:+ "/img-" +:+ PyStr.format_010d (clock w (reads w)) +:+ ".png"
                 := Png image]> (fs w)))
  /\ (forall (frames : list (Image * list (@Class float))) path w,
        logged_tags (trace (save_each frames path w).2)
        = logged_tags (trace w)
          ++ map (fun i => PyStr.format_010d (clock w i)) (seq (reads w) (length frames))
        /\ ((forall i, 0 <= clock w i) ->
            NoDup (map (clock w) (seq (reads w) (length frames))) ->
            NoDup (map (fun i => PyStr.format_010d (clock w i))
                     (seq (reads w) (length frames))))).
Proof.
  split; [exact format_010d_tag|]. split.
  - intros image results path w. rewrite save_data_run. reflexivity.
  - intros frames path w. split; [apply save_each_run|].
    intros Hpos Hnd.
    rewrite <- (map_map (clock w) PyStr.format_010d).
    apply NoDup_map_inj_on; [|exact Hnd].
    intros x y Hx Hy. apply list_elem_of_fmap in Hx as (i & -> & _).
    apply list_elem_of_fmap in Hy as (j & -> & _).
    apply format_010d_inj; apply Hpos.
Qed.

(** *** The store and the viewer *)

Implicit Types (files : gmap string (@content Image float)).

Lemma join_storage r :
  os_path_join STORAGE_PATH r = if PyStr.startswith r "/" then r else "path/to/storage/" +:+ r.
Proof. unfold os_path_join. destruct (PyStr.startswith r "/"); reflexivity. Qed.

Lemma entry_name_spec path n :
  entry_name STORAGE_PATH path = Some n <->
  path = "path/to/storage/" +:+ n /\ n <> "" /\ PyStr.contains n "/" = false.
Proof.
  unfold entry_name. change (os_path_join STORAGE_PATH "") with "path/to/storage/".
  destruct (PyStr.startswith path "path/to/storage/") eqn:Hs.
  - apply startswith_spec in Hs as [r ->]. rewrite drop_app.
    destruct (String.eqb_spec r "") as [->|Hr]; cbn [orb].
    + split; [discriminate|]. intros (H & Hn & _). apply (inj _) in H. congruence.
    + destruct (PyStr.contains r "/") eqn:Hc.
      * split; [discriminate|]. intros (H & _ & Hc'). apply (inj _) in H. congruence.
      * split.
        -- intros [= <-]. auto.
        -- intros (H & _ & _). apply (inj _) in H. congruence.
  - split; [discriminate|]. intros (-> & _ & _).
    assert (PyStr.startswith ("path/to/storage/" +:+ n) "path/to/storage/" = true) as Ht.
    { apply startswith_spec. exists n. reflexivity. }
    congruence.
Qed.

Lemma listing_elem files n :
  n ∈ listing files <->
  is_Some (files !! ("path/to/storage/" +:+ n)) /\ n <> "" /\ PyStr.contains n "/" = false.
Proof.
  unfold listing. rewrite list_elem_of_omap. split.
  - intros (path & Hpath & Hn). apply entry_name_spec in Hn as (-> & Hne & Hc).
    split; [|auto]. apply list_elem_of_fmap in Hpath as ([k x] & Hk & Hkx).
    cbn in Hk. subst k. apply elem_of_map_to_list in Hkx. eauto.
  - intros ([x Hx] & Hne & Hc). exists ("path/to/storage/" +:+ n). split.
    + apply list_elem_of_fmap. exists ("path/to/storage/" +:+ n, x). split; [reflexivity|].
      apply elem_of_map_to_list. exact Hx.
    + apply entry_name_spec. auto.
Qed.

Lemma NoDup_omap_inj {A B : Type} (f : A -> option B) (l : list A) :
  (forall x y z, f x = Some z -> f y = Some z -> x = y) ->
  NoDup l -> NoDup (omap f l).
Proof.
  intros Hinj Hnd. induction Hnd as [|x l Hx Hnd IH]; [constructor|].
  cbn. destruct (f x) as [z|] eqn:Hfx; [|exact IH].
  constructor; [|exact IH].
  intros Hin. apply list_elem_of_omap in Hin as (y & Hy & Hfy).
  rewrite (Hinj _ _ _ Hfx Hfy) in Hx. contradiction.
Qed.

Lemma listing_NoDup files : NoDup (listing files).
Proof.
  apply NoDup_omap_inj; [|apply NoDup_fst_map_to_list].
  intros p1 p2 n H1 H2.
  apply entry_name_spec in H1 as (-> & _). apply entry_name_spec in H2 as (-> & _).
  reflexivity.
Qed.

Lemma index_loop_cons filename rest visits w :
  index_loop (filename :: rest) visits w =
  match index_entry (fs w) filename with
  | Raised e => (Raised e, w)
  | Returned o => index_loop rest (visits ++ option_list o) w
  end.
Proof.
  cbn [index_loop]. unfold index_entry.
  destruct (PyStr.endswith filename ".png"); [|rewrite app_nil_r; reflexivity].
  generalize (os_path_join STORAGE_PATH (PyStr.replace filename ".png" ".json")).
  intros path. unfold bind, os_path_exists, json_load.
  destruct (fs w !! path) as [[img|doc]|] eqn:Hf; cbn; rewrite ?Hf, ?app_nil_r; reflexivity.
Qed.

Lemma index_loop_returns (g : string -> option (@visit float)) filenames visits w :
  (forall f, f ∈ filenames -> index_entry (fs w) f = Returned (g f)) ->
  index_loop filenames visits w = (Returned (visits ++ omap g filenames), w).
Proof.
  revert visits. induction filenames as [|f rest IH]; intros visits Hg.
  - cbn. rewrite app_nil_r. reflexivity.
  - rewrite index_loop_cons, Hg by left. rewrite IH by (intros; apply Hg; right; assumption).
    cbn [omap list_omap]. destruct (g f); cbn; rewrite <- ?app_assoc, ?app_nil_r; reflexivity.
Qed.

Lemma index_loop_entries filenames visits w vs :
  (index_loop filenames visits w).1 = Returned vs ->
  forall f, f ∈ filenames -> exists o, index_entry (fs w) f = Returned o.
Proof.
  revert visits. induction filenames as [|f rest IH]; intros visits Hr f' Hf'.
  - inversion Hf'.
  - rewrite index_loop_cons in Hr.
    destruct (index_entry (fs w) f) as [o|e] eqn:Hf; [|discriminate].
    apply elem_of_cons in Hf' as [->|Hf']; [eauto|].
    eapply IH; eassumption.
Qed.

Lemma index_run w : index w = index_loop (listing (fs w)) [] w.
Proof. reflexivity. Qed.

Lemma index_entry_image files f v :
  index_entry files f = Returned (Some v) -> visit_image v = f.
Proof.
  unfold index_entry. destruct (PyStr.endswith f ".png"); [|discriminate].
  destruct (files !! _) as [[img|doc]|]; try discriminate. intros [= <-]. reflexivity.
Qed.

Lemma filter_one_name (g : string -> option (@visit float)) (names : list string) name v :
  NoDup names -> name ∈ names -> g name = Some v ->
  (forall f v', g f = Some v' -> visit_image v' = f) ->
  filter (fun v' => visit_image v' = name) (omap g names) = [v].
Proof.
  intros Hnd Hin Hname Himg.
  assert (forall l, name ∉ l -> filter (fun v' => visit_image v' = name) (omap g l) = []) as Hnone.
  { induction l as [|f l IH]; intros Hnot; [reflexivity|].
    apply not_elem_of_cons in Hnot as [Hne Hnot]. cbn [omap list_omap].
    destruct (g f) as [v'|] eqn:Hf; [|exact (IH Hnot)].
    rewrite filter_cons_False; [exact (IH Hnot)|].
    rewrite (Himg _ _ Hf). congruence. }
  induction Hnd as [|f l Hf Hnd IH]; [inversion Hin|].
  cbn [omap list_omap]. apply elem_of_cons in Hin as [<-|Hin].
  - rewrite Hname, filter_cons_True by (apply (Himg _ _ Hname)).
    rewrite Hnone by exact Hf. reflexivity.
  - destruct (g f) as [v'|] eqn:Hgf; [|exact (IH Hin)].
    rewrite filter_cons_False; [exact (IH Hin)|].
    rewrite (Himg _ _ Hgf). intros ->. contradiction.
Qed.

Lemma all_chars_app P s t : all_chars P (s +:+ t) = all_chars P s && all_chars P t.
Proof.
  induction s as [|a s IH]; [reflexivity|].
  rewrite str_app_cons. cbn. rewrite IH, andb_assoc. reflexivity.
Qed.

Lemma all_chars_impl (P Q : ascii -> bool) s :
  (forall ch, P ch = true -> Q ch = true) -> all_chars P s = true -> all_chars Q s = true.
Proof.
  intros HPQ. induction s as [|a s IH]; [reflexivity|]. cbn.
  rewrite !andb_true_iff. intros [Ha Hs]. auto.
Qed.

Lemma all_digits_chars s : all_digits s = all_chars is_digit s.
Proof. induction s as [|a s IH]; [reflexivity|]. cbn. rewrite IH. reflexivity. Qed.

Lemma zeros_chars k : all_chars tag_char (PyStr.zeros k) = true.
Proof. induction k as [|k IH]; [reflexivity|]. exact IH. Qed.

Lemma pretty_N_chars (n : N) : all_chars tag_char (pretty n) = true.
Proof.
  destruct (pretty_N_numeral n) as (_ & Hd & _). rewrite all_digits_chars in Hd.
  revert Hd. apply all_chars_impl. intros ch Hch. unfold tag_char. rewrite Hch. reflexivity.
Qed.

Lemma format_010d_chars (ms : Z) : all_chars tag_char (PyStr.format_010d ms) = true.
Proof.
  destruct ms as [|p|p]; [reflexivity| |].
  - unfold PyStr.format_010d, PyStr.zero_pad.
    rewrite all_chars_app, zeros_chars. apply (pretty_N_chars (Npos p)).
  - unfold PyStr.format_010d, PyStr.zero_pad. rewrite str_app_cons. cbn [all_chars].
    change ("" +:+ ?x) with x. rewrite all_chars_app, zeros_chars. apply (pretty_N_chars (Npos p)).
Qed.

Lemma tag_char_plain ch :
  tag_char ch = true -> negb (Ascii.eqb ch ".") = true /\ negb (Ascii.eqb ch "/") = true.
Proof.
  intros Hch. split.
  - destruct (Ascii.eqb_spec ch "."); [subst; discriminate Hch|reflexivity].
  - destruct (Ascii.eqb_spec ch "/"); [subst; discriminate Hch|reflexivity].
Qed.

(** The names [save_data] gives the two files of a visit. *)
Lemma image_name_facts (tag : string) :
  all_chars tag_char tag = true ->
  PyStr.endswith ("img-" +:+ tag +:+ ".png") ".png" = true
  /\ PyStr.replace ("img-" +:+ tag +:+ ".png") ".png" ".json" = "img-" +:+ tag +:+ ".json"
  /\ PyStr.contains ("img-" +:+ tag +:+ ".png") "/" = false
  /\ PyStr.contains ("img-" +:+ tag +:+ ".json") "/" = false
  /\ PyStr.endswith ("img-" +:+ tag +:+ ".json") ".png" = false.
Proof.
  intros Htag.
  assert (all_chars (fun ch => negb (Ascii.eqb ch ".")) ("img-" +:+ tag) = true) as Hdot.
  { rewrite all_chars_app. cbn. revert Htag. apply all_chars_impl.
    intros ch Hch. apply tag_char_plain, Hch. }
  assert (forall ext, all_chars (fun ch => negb (Ascii.eqb ch "/")) ext = true ->
            PyStr.contains ("img-" +:+ tag +:+ ext) "/" = false) as Hslash.
  { intros ext Hext. apply (contains_slash_false (fun ch => negb (Ascii.eqb ch "/")));
      [reflexivity|].
    rewrite !all_chars_app, Hext, andb_true_r. cbn. revert Htag. apply all_chars_impl.
    intros ch Hch. apply tag_char_plain, Hch. }
  split; [|split; [|split; [|split]]].
  - apply endswith_spec. exists ("img-" +:+ tag). rewrite str_app_assoc. reflexivity.
  - unfold PyStr.replace. rewrite <- !str_app_assoc.
    apply replace_plain_png; [exact Hdot|lia].
  - apply Hslash. reflexivity.
  - apply Hslash. reflexivity.
  - destruct (PyStr.endswith _ ".png") eqn:He; [|reflexivity].
    apply endswith_spec in He as [p Hp]. rewrite <- str_app_assoc in Hp.
    symmetry in Hp. apply png_json_clash in Hp. contradiction.
Qed.

Lemma json_decode_results (results : list (@Class float)) :
  json_decode (json_of_results results)
  = PyList (map (fun r => PyList [PyInt (id r); PyFloat (score r)]) results).
Proof.
  unfold json_of_results. cbn [json_decode]. rewrite map_map. reflexivity.
Qed.

Lemma save_files_storage (image : Image) (results : list (@Class float)) ms files :
  save_files image results STORAGE_PATH ms files
  = <["path/to/storage/" +:+ ("img-" +:+ PyStr.format_010d ms +:+ ".json")
        := JsonText (json_of_results results)]>
      (<["path/to/storage/" +:+ ("img-" +:+ PyStr.format_010d ms +:+ ".png")
           := Png image]> files).
Proof. reflexivity. Qed.

(** Listing a store that could be listed before a visit was saved. *)
Lemma index_entry_after_save (image : Image) (results : list (@Class float)) ms files f :
  f ∈ listing (save_files image results STORAGE_PATH ms files) ->
  (f ∈ listing files -> exists o, index_entry files f = Returned o) ->
  exists o, index_entry (save_files image results STORAGE_PATH ms files) f = Returned o.
Proof.
  intros Hf Hold. rewrite save_files_storage in *.
  set (tag := PyStr.format_010d ms) in *.
  destruct (image_name_facts tag (format_010d_chars ms)) as (Hend & Hrep & Hs1 & Hs2 & Hjson).
  unfold index_entry. destruct (PyStr.endswith f ".png") eqn:Hpng; [|eauto].
  destruct (replace_final_png (String.length f) f) as [q Hq];
    [lia|apply endswith_spec; exact Hpng|].
  assert (PyStr.replace f ".png" ".json" = q +:+ ".json") as Hr by exact Hq.
  rewrite Hr, join_storage.
  destruct (decide ((if PyStr.startswith (q +:+ ".json") "/" then q +:+ ".json"
                     else "path/to/storage/" +:+ (q +:+ ".json"))
                    = "path/to/storage/" +:+ ("img-" +:+ tag +:+ ".json"))) as [Hj|Hj].
  { rewrite Hj, lookup_insert_eq. eauto. }
  rewrite lookup_insert_ne by (intros Heq; apply Hj; symmetry; exact Heq).
  destruct (decide ((if PyStr.startswith (q +:+ ".json") "/" then q +:+ ".json"
                     else "path/to/storage/" +:+ (q +:+ ".json"))
                    = "path/to/storage/" +:+ ("img-" +:+ tag +:+ ".png"))) as [Hp|Hp].
  { exfalso. destruct (PyStr.startswith (q +:+ ".json") "/") eqn:Hsl.
    - rewrite Hp in Hsl. discriminate Hsl.
    - apply (inj _) in Hp. rewrite <- str_app_assoc in Hp. symmetry in Hp.
      exact (png_json_clash _ _ Hp). }
  rewrite lookup_insert_ne by (intros Heq; apply Hp; symmetry; exact Heq).
  destruct Hold as [o Ho].
  - apply listing_elem in Hf as (Hsome & Hne & Hc).
    apply listing_elem. split; [|auto].
    rewrite lookup_insert_ne in Hsome.
    + rewrite lookup_insert_ne in Hsome; [exact Hsome|].
      intros Heq. apply (inj _) in Heq. subst f.
      rewrite Hrep in Hr. rewrite <- Hr in Hj. apply Hj. reflexivity.
    + intros Heq. apply (inj _) in Heq. subst f. congruence.
  - unfold index_entry in Ho. rewrite Hpng, Hr, join_storage in Ho.
    destruct (files !! _) as [[img|doc]|]; [discriminate Ho|eauto|eauto].
Qed.

(** C3, in the form the code satisfies. The sidecar of a visit is a JSON array with one
    two-element array [[id, score]] per class, the class id a number; and
    in a store the viewer could list, writing a visit and listing again
    returns exactly one visit for the new tag, whose results are the
    original (id, score) pairs, each as a two-element list. *)
Theorem saved_visit_is_listed_once (image : Image) (results : list (@Class float)) w vs0 :
  (index w).1 = Returned vs0 ->
  fs (save_data image results STORAGE_PATH "png" w).2
    !! (STORAGE_PATH +:+ "/img-" +:+ PyStr.format_010d (clock w (reads w)) +:+ ".json")
  = Some (JsonText (JArray (map (fun r => JArray [JInt (id r); JFloat (score r)]) results)))
  /\ fs (save_data image results STORAGE_PATH "png" w).2
       !! (STORAGE_PATH +:+ "/img-" +:+ PyStr.format_010d (clock w (reads w)) +:+ ".png")
     = Some (Png image)
  /\ exists visits,
       index (save_data image results STORAGE_PATH "png" w).2
       = (Returned visits, (save_data image results STORAGE_PATH "png" w).2)
       /\ filter (fun v => visit_image v
                           = "img-" +:+ PyStr.format_010d (clock w (reads w)) +:+ ".png")
            visits
          = [ Visit ("img-" +:+ PyStr.format_010d (clock w (reads w)) +:+ ".png")
                (PyList (map (fun r => PyList [PyInt (id r); PyFloat (score r)]) results)) ].
Proof.
  intros Hlisted. rewrite save_data_run. cbn [snd fs].
  set (ms := clock w (reads w)). set (tag := PyStr.format_010d ms).
  destruct (image_name_facts tag (format_010d_chars ms)) as (Hend & Hrep & Hs1 & Hs2 & Hjson).
  assert ("path/to/storage/" +:+ ("img-" +:+ tag +:+ ".png")
          <> "path/to/storage/" +:+ ("img-" +:+ tag +:+ ".json")) as Hkeys.
  { intros Heq. apply (inj _) in Heq. rewrite <- !str_app_assoc in Heq.
    exact (png_json_clash _ _ Heq). }
  split; [|split].
  - rewrite save_files_storage. apply lookup_insert_eq.
  - rewrite save_files_storage.
    change (STORAGE_PATH +:+ "/img-" +:+ tag +:+ ".png")
      with ("path/to/storage/" +:+ ("img-" +:+ tag +:+ ".png")).
    rewrite lookup_insert_ne by (intros Heq; apply Hkeys; symmetry; exact Heq).
    apply lookup_insert_eq.
  - match goal with |- context [index ?x] => set (w1 := x) end.
    set (files1 := save_files image results STORAGE_PATH ms (fs w)).
    set (g := fun f => match index_entry files1 f with
                       | Returned o => o
                       | Raised _ => None
                       end).
    exists (omap g (listing files1)). split.
    + rewrite index_run. change (fs w1) with files1.
      rewrite (index_loop_returns g); [reflexivity|].
      intros f Hf. change (fs w1) with files1.
      destruct (index_entry_after_save image results ms (fs w) f Hf) as [o Ho].
      * rewrite index_run in Hlisted. intros Hin.
        exact (index_loop_entries _ _ _ _ Hlisted f Hin).
      * unfold g. fold files1 in Ho. rewrite Ho. reflexivity.
    + assert (index_entry files1 ("img-" +:+ tag +:+ ".png")
              = Returned (Some (Visit ("img-" +:+ tag +:+ ".png")
                                  (json_decode (json_of_results results))))) as Hnew.
      { unfold index_entry. rewrite Hend, Hrep, join_storage.
        change (PyStr.startswith ("img-" +:+ tag +:+ ".json") "/") with false. cbn iota.
        unfold files1. rewrite save_files_storage, lookup_insert_eq. reflexivity. }
      rewrite <- json_decode_results.
      apply filter_one_name.
      * apply listing_NoDup.
      * apply listing_elem. split; [|split; [discriminate|exact Hs1]].
        unfold files1. rewrite save_files_storage.
        rewrite lookup_insert_ne by (intros Heq; apply Hkeys; symmetry; exact Heq).
        rewrite lookup_insert_eq. eauto.
      * unfold g. rewrite Hnew. reflexivity.
      * intros f v'. unfold g.
        destruct (index_entry files1 f) as [o|e] eqn:Hf; [|discriminate].
        intros ->. eapply index_entry_image, Hf.
Qed.

(** What [save_data] writes never holds the string the review looks for. *)
Lemma saved_results_hold_no_deter results w :
  contains_str "deter" (json_decode (json_of_results results)) w = (Returned false, w).
Proof.
  rewrite json_decode_results. cbn [contains_str]. unfold ret. f_equal. f_equal.
  induction results as [|r results IH]; [reflexivity|exact IH].
Qed.

Lemma review_loop_feeder_store filenames triggers w :
  (forall n, n ∈ filenames -> PyStr.endswith n ".json" = true ->
     exists results,
       fs w !! os_path_join STORAGE_PATH n = Some (JsonText (json_of_results results))) ->
  review_loop filenames triggers w = (Returned triggers, w).
Proof.
  induction filenames as [|n rest IH]; intros Hstore; [reflexivity|].
  cbn [review_loop].
  assert (review_loop rest triggers w = (Returned triggers, w)) as Hrest.
  { apply IH. intros n' Hn'. apply Hstore. right. exact Hn'. }
  destruct (PyStr.endswith n ".json") eqn:Hjson; [|exact Hrest].
  destruct (Hstore n) as [results Hfile]; [left|exact Hjson|].
  unfold bind at 1. unfold json_load. rewrite Hfile.
  unfold bind at 1. rewrite saved_results_hold_no_deter. exact Hrest.
Qed.

(** *** The training-mode difference detector *)

Section Training.

Context {K V : Type} `{Countable K}.
Implicit Types (X current previous : list (K * V)).

Lemma shared_labels_size current previous :
  size (list_to_set (map fst current) ∩ list_to_set (map fst previous) : gset K)
  = shared_label_count current previous.
Proof.
  unfold shared_label_count, label_set.
  rewrite <- (size_list_to_set (C := gset K)).
  - f_equal. apply set_eq. intros l.
    rewrite elem_of_intersection, !elem_of_list_to_set, list_elem_of_filter,
      !elem_of_remove_dups.
    tauto.
  - apply NoDup_filter, NoDup_remove_dups.
Qed.

Lemma do_training_run current previous top_k w :
  do_training current previous top_k w =
  if hasDiverged current previous top_k
  then (Returned true,
        {| fs := fs w; trace := trace w ++ [Stdout DifferenceDetected];
           clock := clock w; reads := reads w |})
  else (Returned false, w).
Proof.
  unfold do_training, hasDiverged. rewrite shared_labels_size.
  destruct (Z.ltb_spec (Z.of_nat (shared_label_count current previous)) top_k) as [Hlt|Hge].
  - rewrite bool_decide_eq_true_2 by exact Hlt. reflexivity.
  - rewrite bool_decide_eq_false_2 by lia. reflexivity.
Qed.

Lemma filter_all_members (ls ls' : list K) :
  (forall l, l ∈ ls -> l ∈ ls') -> filter (fun l => l ∈ ls') ls = ls.
Proof.
  induction ls as [|l ls IH]; intros Hsub; [reflexivity|].
  rewrite filter_cons_True by (apply Hsub; left).
  f_equal. apply IH. intros l' Hl'. apply Hsub. right. exact Hl'.
Qed.

Lemma shared_with_itself X :
  shared_label_count X X = length (label_set X).
Proof.
  unfold shared_label_count. rewrite filter_all_members; [reflexivity|auto].
Qed.

(** C4. [do_training] returns, and what it returns is true exactly when
    the two results share strictly fewer than [top_k] labels; so a
    result with at least [top_k] distinct labels never diverges from
    itself. *)
Theorem do_training_iff_intersection_below_top_k :
  (forall current previous top_k w,
     (do_training current previous top_k w).1
       = Returned (hasDiverged current previous top_k)
     /\ ((do_training current previous top_k w).1 = Returned true <->
         Z.of_nat (shared_label_count current previous) < top_k))
  /\ (forall X top_k w,
        top_k <= Z.of_nat (length (label_set X)) ->
        (do_training X X top_k w).1 = Returned false).
Proof.
  split.
  - intros current previous top_k w. rewrite do_training_run. unfold hasDiverged.
    case_bool_decide as Hlt; cbn; (split; [reflexivity|]).
    + split; [intros _; exact Hlt|reflexivity].
    + split; [discriminate|intros Hlt'; contradiction].
  - intros X top_k w Hk. rewrite do_training_run. unfold hasDiverged.
    rewrite shared_with_itself, bool_decide_eq_false_2 by lia. reflexivity.
Qed.

(** C10. A result with fewer than [top_k] distinct labels counts as
    diverged even from itself. *)
Theorem do_training_few_labels_always_diverge X top_k w :
  Z.of_nat (length (label_set X)) < top_k ->
  (do_training X X top_k w).1 = Returned true.
Proof.
  intros Hk. rewrite do_training_run. unfold hasDiverged.
  rewrite shared_with_itself, bool_decide_eq_true_2 by exact Hk. reflexivity.
Qed.

End Training.

End Proofs.

(** * Worked frames *)

(** C2. In a store whose result files were all written by [save_data],
    the review returns no visit at all, though every one of them was
    stored by a deterrent match: it looks for the string "deter" among
    the records. After the feeder has deterred a cat, the listing shows
    the visit and the review does not. *)
Theorem review_misses_saved_triggers :
  (forall (Image float : Type) (w : @world Image float),
     (forall n, n ∈ listing (fs w) -> PyStr.endswith n ".json" = true ->
        exists results,
          fs w !! os_path_join STORAGE_PATH n = Some (JsonText (json_of_results results))) ->
     review_deter_triggers w = (Returned [], w))
  /\ (user_callback (Demo.feeder false) "a cat" tt Demo.boot).1 = Returned (Deter "cat")
  /\ (index (user_callback (Demo.feeder false) "a cat" tt Demo.boot).2).1
     = Returned [Visit "img-0000012345.png" (PyList [PyList [PyInt 3; PyFloat (92 # 100)%Q]])]
  /\ (review_deter_triggers (user_callback (Demo.feeder false) "a cat" tt Demo.boot).2).1
     = Returned [].
Proof.
  split; [|repeat split; vm_compute; reflexivity].
  intros Image float w Hstore. unfold review_deter_triggers, bind, os_listdir.
  apply review_loop_feeder_store. exact Hstore.
Qed.

(** C3 does not hold as stated. The sidecar of the visit stored for the cat
    holds the class id and the score in an array; it is not a record
    with a label string, and the label is not in the file. *)
Lemma sidecar_record_is_not_label_score :
  fs (user_callback (Demo.feeder false) "a cat" tt Demo.boot).2
    !! "path/to/storage/img-0000012345.json"
  = Some (JsonText (JArray [JArray [JInt 3; JFloat (92 # 100)%Q]]))
  /\ is_label_score_array (JArray [JArray [JInt 3; JFloat (92 # 100)%Q]]) = false.
Proof. split; vm_compute; reflexivity. Qed.

(** C6 does not hold as stated. Two visits stored within the same millisecond
    get the same tag, and the second replaces the files of the first;
    and from [10^10] milliseconds on a tag has eleven digits. *)
Lemma tags_collide_within_a_millisecond :
  logged_tags (trace (save_each [("a cat", []); ("a sparrow", [])] STORAGE_PATH Demo.stalled).2)
  = ["0000012345"; "0000012345"]
  /\ ~ NoDup (logged_tags
                (trace (save_each [("a cat", []); ("a sparrow", [])] STORAGE_PATH Demo.stalled).2))
  /\ size (fs (save_each [("a cat", []); ("a sparrow", [])] STORAGE_PATH Demo.stalled).2) = 2%nat
  /\ PyStr.format_010d (10 ^ 10) = "10000000000".
Proof.
  assert (logged_tags
            (trace (save_each [("a cat", []); ("a sparrow", [])] STORAGE_PATH Demo.stalled).2)
          = ["0000012345"; "0000012345"]) as Htags by (vm_compute; reflexivity).
  split; [exact Htags|]. split; [|split; vm_compute; reflexivity].
  rewrite Htags. intros Hnd. apply NoDup_cons in Hnd as [Hnot _]. apply Hnot. left.
Qed.

(** *** The theorems at the cat and the sparrow *)

Lemma user_callback_decision_witness :
  args_print (Demo.feeder false) = false
  /\ named_result (labels (Demo.feeder false)) (interpreter (Demo.feeder false) "a cat")
     = Some [("cat", (92 # 100)%Q)]
  /\ (user_callback (Demo.feeder false) "a cat" tt Demo.boot).1
     = Returned (evaluate [("cat", (92 # 100)%Q)] (list_to_set DETER_LABELS)).
Proof.
  split; [reflexivity|]. split; [vm_compute; reflexivity|].
  destruct (user_callback_decision (Demo.feeder false) "a cat" Demo.boot
              [("cat", (92 # 100)%Q)]) as [H _];
    [reflexivity|vm_compute; reflexivity|exact H].
Defined.

Lemma deter_sounds_then_saves_witness :
  (user_callback (Demo.feeder false) "a cat" tt Demo.boot).1 = Returned (Deter "cat")
  /\ trace (user_callback (Demo.feeder false) "a cat" tt Demo.boot).2
     = [ Playsound "deter.wav";
         ImageSave "path/to/storage/img-0000012345.png" "a cat";
         Stdout (FrameSaved "path/to/storage/img-0000012345.png");
         LoggingInfo "0000012345" [mkClass 3 (92 # 100)%Q];
         JsonDump "path/to/storage/img-0000012345.json"
           (JArray [JArray [JInt 3; JFloat (92 # 100)%Q]]) ].
Proof.
  split; [vm_compute; reflexivity|].
  destruct (deter_sounds_then_saves (Demo.feeder false) "a cat" Demo.boot "cat") as [Hw _];
    [vm_compute; reflexivity|].
  rewrite Hw. vm_compute. reflexivity.
Defined.

Lemma no_action_no_effects_witness :
  (user_callback (Demo.feeder false) "a sparrow" tt Demo.boot).1 = Returned NoAction
  /\ trace (user_callback (Demo.feeder false) "a sparrow" tt Demo.boot).2 = []
  /\ fs (user_callback (Demo.feeder false) "a sparrow" tt Demo.boot).2 = ∅.
Proof.
  split; [vm_compute; reflexivity|].
  destruct (no_action_no_effects (Demo.feeder false) "a sparrow" Demo.boot) as (_ & Ht & Hf);
    [vm_compute; reflexivity|].
  split; [exact Ht|exact Hf].
Defined.

Lemma print_flag_raises_name_error_witness :
  args_print (Demo.feeder true) = true
  /\ user_callback (Demo.feeder true) "a cat" tt Demo.boot
     = (Raised (NameError "last_time"), tick 2 Demo.boot).
Proof.
  split; [reflexivity|].
  destruct (print_flag_raises_name_error (Demo.feeder true) "a cat" Demo.boot) as [H _];
    [reflexivity|exact H].
Defined.

Lemma do_training_few_labels_always_diverge_witness :
  Z.of_nat (length (label_set [("cat", (92 # 100)%Q)])) < 3
  /\ (do_training [("cat", (92 # 100)%Q)] [("cat", (92 # 100)%Q)] 3 Demo.boot).1
     = Returned true.
Proof.
  split; [vm_compute; reflexivity|].
  apply (do_training_few_labels_always_diverge [("cat", (92 # 100)%Q)] 3 Demo.boot).
  vm_compute. reflexivity.
Defined.

Lemma saved_visit_is_listed_once_witness :
  (index Demo.boot).1 = Returned []
  /\ exists visits,
       index (save_data "a cat" [mkClass 3 (92 # 100)%Q] STORAGE_PATH "png" Demo.boot).2
       = (Returned visits,
          (save_data "a cat" [mkClass 3 (92 # 100)%Q] STORAGE_PATH "png" Demo.boot).2)
       /\ filter (fun v => visit_image v = "img-0000012343.png") visits
          = [Visit "img-0000012343.png" (PyList [PyList [PyInt 3; PyFloat (92 # 100)%Q]])].
Proof.
  split; [vm_compute; reflexivity|].
  destruct (saved_visit_is_listed_once "a cat" [mkClass 3 (92 # 100)%Q] Demo.boot [])
    as (_ & _ & H); [vm_compute; reflexivity|].
  exact H.
Defined.

(** * Further properties of the code *)

Section CallbackMore.
Context {Image float : Type}.
Implicit Types (w : @world Image float) (c : @closure Image float).
Implicit Types (results ranked : list (@Class float)).
Implicit Types (files : gmap string (@content Image float)).

(** *** The callback *)

(** The world after the callback: the two readings taken, and on a match
    the sound played and the frame stored. *)
Lemma user_callback_world c image w :
  (user_callback c image tt w).2 = tick 2 w
  \/ (user_callback c image tt w).2 =
      {| fs := save_files image (get_classes (interpreter c image) 1)
                 (args_storage c) (clock w (2 + reads w)) (fs w);
         trace := trace w ++ Playsound (args_sound c)
                    :: save_events image (get_classes (interpreter c image) 1)
                         (args_storage c) (clock w (2 + reads w));
         clock := clock w;
         reads := (3 + reads w)%nat |}.
Proof.
  rewrite user_callback_run. destruct (args_print c); [left; reflexivity|].
  unfold get_classes. destruct (interpreter c image) as [|top rest]; [left; reflexivity|].
  change (firstn 1 (top :: rest)) with [top]. rewrite deter_loop_single.
  destruct (labels c !! id top) as [label|]; [|left; reflexivity].
  destruct (list_contains label DETER_LABELS); [right|left]; reflexivity.
Qed.

(** X1. A best class whose id is not in the label file makes the
    callback raise [KeyError] for that id; nothing is played or stored. *)
Theorem unlabelled_class_raises_key_error c image w top rest :
  args_print c = false ->
  interpreter c image = top :: rest ->
  labels c !! id top = None ->
  user_callback c image tt w = (Raised (KeyError (id top)), tick 2 w).
Proof.
  intros Hp Hi Hl. rewrite user_callback_run, Hp. unfold get_classes. rewrite Hi.
  change (firstn 1 (top :: rest)) with [top]. rewrite deter_loop_single, Hl. reflexivity.
Qed.

(** X2. The decision depends on the id of the best class and on the
    label file only: neither the score, nor the other classes, nor the
    sound, the storage directory, the clock or the store change it. *)
Theorem decision_ignores_scores c c' image image' w w' :
  args_print c = false -> args_print c' = false ->
  labels c = labels c' ->
  option_map id (head (interpreter c image)) = option_map id (head (interpreter c' image')) ->
  (user_callback c image tt w).1 = (user_callback c' image' tt w').1.
Proof.
  intros Hp Hp' Hl Hid. rewrite !user_callback_run, Hp, Hp'. unfold get_classes.
  destruct (interpreter c image) as [|top rest], (interpreter c' image') as [|top' rest'];
    cbn in Hid; try discriminate; [reflexivity|].
  injection Hid as Hid. change (firstn 1 (top :: rest)) with [top].
  change (firstn 1 (top' :: rest')) with [top'].
  rewrite !deter_loop_single, <- Hl, <- Hid.
  destruct (labels c !! id top) as [label|]; [|reflexivity].
  destruct (list_contains label DETER_LABELS); reflexivity.
Qed.

End CallbackMore.

Section StoreMore.
Context {Image float : Type}.
Implicit Types (w : @world Image float) (c : @closure Image float).
Implicit Types (results ranked : list (@Class float)).
Implicit Types (files : gmap string (@content Image float)).

(** *** What [save_data] does to the store *)

Lemma str_app_cancel_r (s t x : string) : s +:+ x = t +:+ x -> s = t.
Proof.
  revert t. induction s as [|a s IH]; intros [|b t] Heq.
  - reflexivity.
  - apply (f_equal String.length) in Heq. rewrite !str_length_app in Heq.
    cbn in Heq. lia.
  - apply (f_equal String.length) in Heq. rewrite !str_length_app in Heq.
    cbn in Heq. lia.
  - rewrite !str_app_cons in Heq. injection Heq as -> Heq. f_equal. apply IH. exact Heq.
Qed.

Lemma visit_names_differ (path tag : string) :
  path +:+ "/img-" +:+ tag +:+ ".png" <> path +:+ "/img-" +:+ tag +:+ ".json".
Proof.
  intros Heq. rewrite <- !str_app_assoc in Heq. exact (png_json_clash _ _ Heq).
Qed.

(** X3. [save_data] writes the image and the result file of the visit,
    and leaves every other file of the store as it was. *)
Theorem save_data_writes_two_files (image : Image) results path w :
  fs (save_data image results path "png" w).2
    !! (path +:+ "/img-" +:+ PyStr.format_010d (clock w (reads w)) +:+ ".png")
  = Some (Png image)
  /\ fs (save_data image results path "png" w).2
       !! (path +:+ "/img-" +:+ PyStr.format_010d (clock w (reads w)) +:+ ".json")
     = Some (JsonText (json_of_results results))
  /\ forall other,
       other <> path +:+ "/img-" +:+ PyStr.format_010d (clock w (reads w)) +:+ ".png" ->
       other <> path +:+ "/img-" +:+ PyStr.format_010d (clock w (reads w)) +:+ ".json" ->
       fs (save_data image results path "png" w).2 !! other = fs w !! other.
Proof.
  rewrite save_data_run. cbn [snd fs]. unfold save_files.
  pose proof (visit_names_differ path (PyStr.format_010d (clock w (reads w)))) as Hne.
  split; [|split].
  - rewrite lookup_insert_ne by (intros Heq; apply Hne; symmetry; exact Heq).
    apply lookup_insert_eq.
  - apply lookup_insert_eq.
  - intros other Hpng Hjson.
    rewrite !lookup_insert_ne by (intros Heq; symmetry in Heq; contradiction).
    reflexivity.
Qed.

(** X4. A visit stored at the same clock reading as the one before it
    replaces both of its files: the store is as if the earlier visit had
    never been stored. *)
Theorem same_reading_overwrites (image1 image2 : Image) results1 results2 path w :
  clock w (S (reads w)) = clock w (reads w) ->
  fs (save_data image2 results2 path "png"
        (save_data image1 results1 path "png" w).2).2
  = fs (save_data image2 results2 path "png" w).2.
Proof.
  intros Hsame. rewrite !save_data_run. cbn [snd fs clock reads]. rewrite Hsame.
  unfold save_files.
  pose proof (visit_names_differ path (PyStr.format_010d (clock w (reads w)))) as Hne.
  set (png := path +:+ "/img-" +:+ PyStr.format_010d (clock w (reads w)) +:+ ".png") in *.
  set (jsn := path +:+ "/img-" +:+ PyStr.format_010d (clock w (reads w)) +:+ ".json") in *.
  apply map_eq. intros key.
  destruct (decide (key = jsn)) as [->|Hj]; [rewrite !lookup_insert_eq; reflexivity|].
  destruct (decide (key = png)) as [->|Hp].
  - rewrite !(lookup_insert_ne _ jsn png) by (intros Heq; apply Hne; symmetry; exact Heq).
    rewrite !lookup_insert_eq. reflexivity.
  - repeat rewrite lookup_insert_ne by (intros Heq; symmetry in Heq; contradiction).
    reflexivity.
Qed.

Lemma save_files_paired (image : Image) results path ms files :
  paired files -> paired (save_files image results path ms files).
Proof.
  intros Hp stem. unfold save_files.
  destruct (decide (stem = path +:+ "/img-" +:+ PyStr.format_010d ms)) as [->|Hstem].
  - rewrite !str_app_assoc. rewrite lookup_insert_eq.
    rewrite lookup_insert_ne by (intros Heq; exact (visit_names_differ _ _ (eq_sym Heq))).
    rewrite lookup_insert_eq. split; eauto.
  - assert (forall ext, stem +:+ ext <> path +:+ "/img-" +:+ PyStr.format_010d ms +:+ ext)
      as Hother.
    { intros ext Heq. apply Hstem. rewrite <- !str_app_assoc in Heq.
      rewrite <- !str_app_assoc. exact (str_app_cancel_r _ _ _ Heq). }
    rewrite !lookup_insert_ne; [apply Hp|..];
      intros Heq;
      first [ exact (Hother _ (eq_sym Heq))
            | rewrite <- !str_app_assoc in Heq;
              first [ exact (png_json_clash _ _ Heq)
                    | exact (png_json_clash _ _ (eq_sym Heq)) ] ].
Qed.

(** X5. The callback keeps images and result files in pairs: if every
    image of the store has its result file and every result file its
    image before a frame, the same holds after it, whatever the frame
    and however the callback ends. *)
Theorem user_callback_keeps_pairs c image w :
  paired (fs w) -> paired (fs (user_callback c image tt w).2).
Proof.
  intros Hp. destruct (user_callback_world c image w) as [-> | ->]; cbn [fs tick].
  - exact Hp.
  - apply save_files_paired, Hp.
Qed.

End StoreMore.

Section PageLoops.
Context {Image float : Type}.
Implicit Types (w : @world Image float) (c : @closure Image float).
Implicit Types (files : gmap string (@content Image float)).

(** *** The two listing pages as loops over the directory *)

Lemma collect_returned {A : Type} (entry : string -> outcome (option A)) names vs :
  collect entry names = Returned vs ->
  vs = omap (fun n => match entry n with Returned o => o | Raised _ => None end) names
  /\ forall n, n ∈ names -> exists o, entry n = Returned o.
Proof.
  revert vs. induction names as [|n rest IH]; intros vs Hc.
  - injection Hc as <-. split; [reflexivity|]. intros n Hn. inversion Hn.
  - cbn [collect] in Hc. destruct (entry n) as [o|e] eqn:Hn; [|discriminate].
    destruct (collect entry rest) as [vs'|e]; [|discriminate].
    injection Hc as <-. destruct (IH vs' eq_refl) as [-> Hall]. split.
    + cbn [omap list_omap]. rewrite Hn. destruct o; reflexivity.
    + intros n' Hn'. apply elem_of_cons in Hn' as [->|Hn']; eauto.
Qed.



Lemma index_loop_collect filenames visits w :
  index_loop filenames visits w =
  (match collect (index_entry (fs w)) filenames with
   | Returned vs => Returned (visits ++ vs)
   | Raised e => Raised e
   end, w).
Proof.
  revert visits. induction filenames as [|f rest IH]; intros visits.
  - cbn. rewrite app_nil_r. reflexivity.
  - rewrite index_loop_cons. cbn [collect].
    destruct (index_entry (fs w) f) as [o|e]; [|reflexivity].
    rewrite IH. destruct (collect _ rest); [|reflexivity].
    rewrite <- app_assoc. reflexivity.
Qed.

Lemma contains_str_holds (s : string) (v : @pyval float) w :
  contains_str s v w = (holds_str s v, w).
Proof. destruct v; reflexivity. Qed.

Lemma review_loop_cons filename rest triggers w :
  review_loop (filename :: rest) triggers w =
  match review_entry (fs w) filename with
  | Raised e => (Raised e, w)
  | Returned o => review_loop rest (triggers ++ option_list o) w
  end.
Proof.
  cbn [review_loop]. unfold review_entry.
  destruct (PyStr.endswith filename ".json"); [|rewrite app_nil_r; reflexivity].
  generalize (PyStr.replace filename ".json" ".png"). intros image.
  generalize (os_path_join STORAGE_PATH filename). intros path.
  unfold bind at 1. unfold json_load.
  destruct (fs w !! path) as [[img|doc]|]; [reflexivity| |reflexivity].
  unfold bind at 1. rewrite contains_str_holds.
  destruct (holds_str "deter" (json_decode doc)) as [[|]|e];
    rewrite ?app_nil_r; reflexivity.
Qed.

Lemma review_loop_collect filenames triggers w :
  review_loop filenames triggers w =
  (match collect (review_entry (fs w)) filenames with
   | Returned vs => Returned (triggers ++ vs)
   | Raised e => Raised e
   end, w).
Proof.
  revert triggers. induction filenames as [|f rest IH]; intros triggers.
  - cbn. rewrite app_nil_r. reflexivity.
  - rewrite review_loop_cons. cbn [collect].
    destruct (review_entry (fs w) f) as [o|e]; [|reflexivity].
    rewrite IH. destruct (collect _ rest); [|reflexivity].
    rewrite <- app_assoc. reflexivity.
Qed.

Lemma index_collect w :
  index w = (collect (index_entry (fs w)) (listing (fs w)), w).
Proof.
  rewrite index_run, index_loop_collect. destruct (collect _ _); reflexivity.
Qed.

Lemma review_collect w :
  review_deter_triggers w = (collect (review_entry (fs w)) (listing (fs w)), w).
Proof.
  change (review_deter_triggers w) with (review_loop (listing (fs w)) [] w).
  rewrite review_loop_collect. destruct (collect _ _); reflexivity.
Qed.


(** X6. Neither page changes anything: whether it returns or raises,
    the store, the calls made so far and the clock are as before. *)
Theorem viewer_pages_change_nothing w :
  (index w).2 = w /\ (review_deter_triggers w).2 = w.
Proof. rewrite index_collect, review_collect. split; reflexivity. Qed.

End PageLoops.

Section PageResults.
Context {Image float : Type}.
Implicit Types (w : @world Image float) (c : @closure Image float).
Implicit Types (files : gmap string (@content Image float)).

Lemma index_entry_some files f v :
  index_entry files f = Returned (Some v) <->
  visit_image v = f
  /\ PyStr.endswith f ".png" = true
  /\ exists doc,
       files !! os_path_join STORAGE_PATH (PyStr.replace f ".png" ".json") = Some (JsonText doc)
       /\ visit_results v = json_decode doc.
Proof.
  unfold index_entry. destruct (PyStr.endswith f ".png").
  - destruct (files !! _) as [[img|doc]|].
    + split; [discriminate|]. intros (_ & _ & doc & Hd & _). discriminate Hd.
    + split.
      * intros [= <-]. split; [reflexivity|]. split; [reflexivity|]. eauto.
      * intros (Hi & _ & doc' & [= <-] & Hr). destruct v as [i r]. cbn in *. subst.
        reflexivity.
    + split; [discriminate|]. intros (_ & _ & doc & Hd & _). discriminate Hd.
  - split; [discriminate|]. intros (_ & Hf & _). discriminate Hf.
Qed.


Lemma NoDup_images {A : Type} (image_of : A -> string) (g : string -> option A) names :
  (forall n v, g n = Some v -> image_of v = n) ->
  NoDup names -> NoDup (map image_of (omap g names)).
Proof.
  intros Himg Hnd. induction Hnd as [|n names Hn Hnd IH]; [constructor|].
  cbn [omap list_omap]. destruct (g n) as [v|] eqn:Hg; [|exact IH].
  cbn [map]. constructor; [|exact IH].
  rewrite (Himg _ _ Hg). intros Hin.
  apply list_elem_of_fmap in Hin as (v' & Heq & Hv').
  apply list_elem_of_omap in Hv' as (n' & Hn' & Hg').
  rewrite (Himg _ _ Hg') in Heq. subst n'. contradiction.
Qed.

(** X7. When [index] returns, it returns one visit for each listed
    [.png] name whose result file exists, with the value loaded from that
    file, and nothing else: an image without result file and a result
    file without image are left out, and no image is listed twice. *)
Theorem index_lists_images_with_result_files w visits :
  (index w).1 = Returned visits ->
  NoDup (map visit_image visits)
  /\ forall v,
       v ∈ visits <->
       visit_image v ∈ listing (fs w)
       /\ PyStr.endswith (visit_image v) ".png" = true
       /\ exists doc,
            fs w !! os_path_join STORAGE_PATH
                      (PyStr.replace (visit_image v) ".png" ".json")
            = Some (JsonText doc)
            /\ visit_results v = json_decode doc.
Proof.
  rewrite index_collect. cbn [fst]. intros Hc.
  apply collect_returned in Hc as [-> Hall]. split.
  - apply NoDup_images; [|apply listing_NoDup].
    intros n v Hg. destruct (index_entry (fs w) n) as [o|e] eqn:Hn; [|discriminate].
    subst o. apply index_entry_some in Hn as [Hi _]. exact Hi.
  - intros v. rewrite list_elem_of_omap. split.
    + intros (n & Hn & Hg).
      destruct (index_entry (fs w) n) as [o|e] eqn:He; [|discriminate]. subst o.
      apply index_entry_some in He as (Hi & Hpng & Hdoc). rewrite Hi. auto.
    + intros (Hn & Hpng & Hdoc). exists (visit_image v). split; [exact Hn|].
      assert (index_entry (fs w) (visit_image v) = Returned (Some v)) as ->; [|reflexivity].
      apply index_entry_some. auto.
Qed.



Lemma review_entry_some files n v :
  n ∈ listing files ->
  review_entry files n = Returned (Some v) <->
  PyStr.endswith n ".json" = true
  /\ exists doc,
       files !! os_path_join STORAGE_PATH n = Some (JsonText doc)
       /\ holds_str "deter" (json_decode doc) = Returned true
       /\ v = Visit (PyStr.replace n ".json" ".png") (json_decode doc).
Proof.
  intros _. unfold review_entry. destruct (PyStr.endswith n ".json").
  - destruct (files !! _) as [[img|doc]|].
    + split; [discriminate|]. intros (_ & doc & Hd & _). discriminate Hd.
    + destruct (holds_str "deter" (json_decode doc)) as [[|]|e] eqn:Hh.
      * split.
        -- intros [= <-]. split; [reflexivity|]. eauto.
        -- intros (_ & doc' & [= <-] & _ & ->). reflexivity.
      * split; [discriminate|]. intros (_ & doc' & [= <-] & Hh' & _). congruence.
      * split; [discriminate|]. intros (_ & doc' & [= <-] & Hh' & _). congruence.
    + split; [discriminate|]. intros (_ & doc & Hd & _). discriminate Hd.
  - split; [discriminate|]. intros (Hf & _). discriminate Hf.
Qed.


(** X9. When the review returns, it returns one trigger for each listed
    [.json] name whose document, once loaded, holds the string "deter":
    as an item of a list, a key of an object or a part of a string. The
    image it names is the file name with [.json] replaced by [.png]. *)
Theorem review_lists_documents_holding_deter w triggers :
  (review_deter_triggers w).1 = Returned triggers ->
  forall v,
    v ∈ triggers <->
    exists n doc,
      n ∈ listing (fs w)
      /\ PyStr.endswith n ".json" = true
      /\ fs w !! os_path_join STORAGE_PATH n = Some (JsonText doc)
      /\ holds_str "deter" (json_decode doc) = Returned true
      /\ v = Visit (PyStr.replace n ".json" ".png") (json_decode doc).
Proof.
  rewrite review_collect. cbn [fst]. intros Hc.
  apply collect_returned in Hc as [-> Hall].
  intros v. rewrite list_elem_of_omap. split.
  - intros (n & Hn & Hg).
    destruct (review_entry (fs w) n) as [o|e] eqn:He; [|discriminate]. subst o.
    apply (review_entry_some _ _ _ Hn) in He as (Hjson & doc & Hfile & Hh & ->).
    exists n, doc. auto.
  - intros (n & doc & Hn & Hjson & Hfile & Hh & ->). exists n. split; [exact Hn|].
    match goal with |- context [review_entry ?fl n] =>
      assert (review_entry fl n
              = Returned (Some (Visit (PyStr.replace n ".json" ".png") (json_decode doc))))
        as -> end; [|reflexivity].
    apply (review_entry_some _ _ _ Hn). eauto 10.
Qed.


End PageResults.

Section PrintAndDetector.
Context {Image float : Type}.
Implicit Types (w : @world Image float) (c : @closure Image float).
Implicit Types (results : list (@Class float)).

(** *** The print flag and [print_results] *)

(** X11. Any non-empty value given with [--print] turns printing on, the
    value [False] included, and with printing on the callback raises
    [NameError] on every frame; only an absent option or an empty value
    leave it off. *)
Theorem any_print_value_breaks_the_callback :
  parsed_print None = false
  /\ parsed_print (Some "") = false
  /\ parsed_print (Some "False") = true
  /\ (forall s, s <> "" -> parsed_print (Some s) = true)
  /\ (forall s c image w,
        s <> "" -> args_print c = parsed_print (Some s) ->
        user_callback c image tt w = (Raised (NameError "last_time"), tick 2 w)).
Proof.
  assert (forall s, s <> "" -> parsed_print (Some s) = true) as Hon.
  { intros s Hs. cbn. unfold bool_of_str. destruct (String.eqb_spec s ""); [contradiction|].
    reflexivity. }
  do 3 (split; [reflexivity|]). split; [exact Hon|].
  intros s c image w Hs Hc. rewrite user_callback_run, Hc, Hon by exact Hs. reflexivity.
Qed.

Lemma print_scores_run results w :
  print_scores results w =
  (Returned tt,
   {| fs := fs w;
      trace := trace w ++ map (fun r => Stdout (ResultLine (id r) (score r))) results;
      clock := clock w;
      reads := reads w |}).
Proof.
  revert w. induction results as [|r results IH]; intros w.
  - cbn. rewrite app_nil_r. destruct w; reflexivity.
  - cbn [print_scores]. unfold bind, print, emit. rewrite IH. cbn [fs trace clock reads map].
    rewrite <- app_assoc. reflexivity.
Qed.

(** X12. [print_results] divides before it prints: when [end_time]
    equals [last_time] it raises [ZeroDivisionError] and nothing is
    printed; otherwise it prints the summary line and then one line per
    result, in order, and returns. *)
Theorem print_results_lines (start_time last_time end_time : Z) results w :
  (end_time = last_time ->
   print_results start_time last_time end_time results w = (Raised ZeroDivisionError, w))
  /\ (end_time <> last_time ->
      print_results start_time last_time end_time results w =
      (Returned tt,
       {| fs := fs w;
          trace := trace w
                     ++ Stdout (InferenceLine start_time last_time end_time)
                     :: map (fun r => Stdout (ResultLine (id r) (score r))) results;
          clock := clock w;
          reads := reads w |})).
Proof.
  unfold print_results. split; intros Ht.
  - subst. rewrite Z.sub_diag. reflexivity.
  - destruct (Z.eqb_spec (end_time - last_time) 0) as [H0|_]; [lia|].
    unfold bind, print, emit. rewrite print_scores_run. cbn [fs trace clock reads].
    rewrite <- app_assoc. reflexivity.
Qed.

(** X17. The value loaded from a result file determines the results
    that were stored: two result lists with the same loaded value are
    the same list, ids and scores alike. *)
Theorem stored_results_are_recoverable results1 results2 :
  json_decode (json_of_results results1) = json_decode (json_of_results results2) ->
  results1 = results2.
Proof.
  rewrite !json_decode_results. intros [= Heq].
  revert results2 Heq. induction results1 as [|[i1 s1] results1 IH];
    intros [|[i2 s2] results2] Heq; try discriminate; [reflexivity|].
  cbn in Heq. injection Heq as -> -> Heq. f_equal. apply IH. exact Heq.
Qed.

(** *** More on the difference detector *)

Section Detector.

Context {K V : Type} `{Countable K}.
Implicit Types (X Y : list (K * V)).

Lemma shared_label_count_comm X Y :
  shared_label_count X Y = shared_label_count Y X.
Proof using Type*.
  rewrite <- !shared_labels_size. f_equal. apply (comm_L (∩)).
Qed.

Lemma length_remove_dups (ls : list K) : (length (remove_dups ls) <= length ls)%nat.
Proof.
  induction ls as [|l ls IH]; [reflexivity|]. cbn.
  destruct (decide_rel elem_of l ls); cbn; lia.
Qed.

Lemma shared_label_count_le X Y :
  (shared_label_count X Y <= length X)%nat.
Proof.
  unfold shared_label_count. etransitivity; [apply length_filter|].
  unfold label_set. rewrite <- (length_map fst X). apply length_remove_dups.
Qed.

(** X13. The detector does not tell the current result from the
    previous one: swapping them gives the same answer. *)
Theorem do_training_is_symmetric X Y top_k w :
  (do_training X Y top_k w).1 = (do_training Y X top_k w).1.
Proof.
  rewrite !do_training_run. unfold hasDiverged. rewrite (shared_label_count_comm X Y).
  case_bool_decide; reflexivity.
Qed.

(** X14. Only the sets of labels count: results with the same labels,
    in whatever order, however often repeated and with whatever scores,
    get the same answer. *)
Theorem do_training_sees_label_sets_only X X' Y Y' top_k w :
  (forall l, l ∈ map fst X <-> l ∈ map fst X') ->
  (forall l, l ∈ map fst Y <-> l ∈ map fst Y') ->
  (do_training X Y top_k w).1 = (do_training X' Y' top_k w).1.
Proof.
  intros HX HY. rewrite !do_training_run. unfold hasDiverged.
  rewrite <- !shared_labels_size.
  assert ((list_to_set (map fst X) : gset K) = list_to_set (map fst X')) as ->.
  { apply set_eq. intros l. rewrite !elem_of_list_to_set. apply HX. }
  assert ((list_to_set (map fst Y) : gset K) = list_to_set (map fst Y')) as ->.
  { apply set_eq. intros l. rewrite !elem_of_list_to_set. apply HY. }
  case_bool_decide; reflexivity.
Qed.

(** X15. A result with fewer entries than [top_k], the empty result
    included, always counts as diverged, whatever it is compared with
    and on whichever side it stands. *)
Theorem do_training_short_result_diverges X Y top_k w :
  Z.of_nat (length X) < top_k \/ Z.of_nat (length Y) < top_k ->
  (do_training X Y top_k w).1 = Returned true.
Proof.
  intros Hshort. rewrite do_training_run. unfold hasDiverged.
  pose proof (shared_label_count_le X Y) as HX.
  pose proof (shared_label_count_le Y X) as HY.
  rewrite (shared_label_count_comm Y X) in HY.
  rewrite bool_decide_eq_true_2 by lia. reflexivity.
Qed.

(** X16. With [top_k] zero or negative nothing ever counts as diverged:
    the detector returns [False] and prints nothing. *)
Theorem do_training_needs_positive_top_k X Y top_k w :
  top_k <= 0 ->
  do_training X Y top_k w = (Returned false, w).
Proof.
  intros Hk. rewrite do_training_run. unfold hasDiverged.
  rewrite bool_decide_eq_false_2 by lia. reflexivity.
Qed.

End Detector.

End PrintAndDetector.

(** *** The further theorems at work *)

Lemma unlabelled_class_raises_key_error_witness :
  args_print More.stranger = false
  /\ labels More.stranger !! 42 = None
  /\ user_callback More.stranger "a heron" tt Demo.boot
     = (Raised (KeyError 42), tick 2 Demo.boot).
Proof.
  split; [reflexivity|]. split; [vm_compute; reflexivity|].
  apply (unlabelled_class_raises_key_error More.stranger "a heron" Demo.boot
           (mkClass 42 (50 # 100)%Q) []); [reflexivity|reflexivity|vm_compute; reflexivity].
Defined.

Lemma decision_ignores_scores_witness :
  (user_callback (Demo.feeder false) "a cat" tt Demo.boot).1
  = (user_callback More.faint "a cat, far away" tt Demo.stalled).1.
Proof.
  apply (decision_ignores_scores (Demo.feeder false) More.faint "a cat" "a cat, far away"
           Demo.boot Demo.stalled); reflexivity.
Defined.

Lemma same_reading_overwrites_witness :
  clock Demo.stalled (S (reads Demo.stalled)) = clock Demo.stalled (reads Demo.stalled)
  /\ fs (save_data "a sparrow" [mkClass 7 (81 # 100)%Q] STORAGE_PATH "png"
           (save_data "a cat" [mkClass 3 (92 # 100)%Q] STORAGE_PATH "png" Demo.stalled).2).2
     = fs (save_data "a sparrow" [mkClass 7 (81 # 100)%Q] STORAGE_PATH "png" Demo.stalled).2.
Proof.
  split; [reflexivity|].
  apply (same_reading_overwrites "a cat" "a sparrow" [mkClass 3 (92 # 100)%Q]
           [mkClass 7 (81 # 100)%Q] STORAGE_PATH Demo.stalled).
  reflexivity.
Defined.

Lemma user_callback_keeps_pairs_witness :
  paired (fs Demo.boot)
  /\ paired (fs (user_callback (Demo.feeder false) "a cat" tt Demo.boot).2).
Proof.
  assert (paired (fs Demo.boot)) as Hp.
  { intros stem. cbn. rewrite !lookup_empty. split; intros [x Hx]; discriminate Hx. }
  split; [exact Hp|].
  apply (user_callback_keeps_pairs (Demo.feeder false) "a cat" Demo.boot). exact Hp.
Defined.

Lemma index_lists_images_with_result_files_witness :
  (index (user_callback (Demo.feeder false) "a cat" tt Demo.boot).2).1
  = Returned [Visit "img-0000012345.png" (PyList [PyList [PyInt 3; PyFloat (92 # 100)%Q]])]
  /\ NoDup (map visit_image
              [Visit "img-0000012345.png" (PyList [PyList [PyInt 3; PyFloat (92 # 100)%Q]])]).
Proof.
  assert ((index (user_callback (Demo.feeder false) "a cat" tt Demo.boot).2).1
          = Returned [Visit "img-0000012345.png"
                        (PyList [PyList [PyInt 3; PyFloat (92 # 100)%Q]])]) as Hi
    by (vm_compute; reflexivity).
  split; [exact Hi|].
  exact (proj1 (index_lists_images_with_result_files _ _ Hi)).
Defined.

Lemma review_lists_documents_holding_deter_witness :
  (review_deter_triggers More.flagged).1
  = Returned [Visit "flag.png" (PyList [PyStr "deter"])]
  /\ exists n doc,
       n ∈ listing (fs More.flagged)
       /\ PyStr.endswith n ".json" = true
       /\ fs More.flagged !! os_path_join STORAGE_PATH n = Some (JsonText doc)
       /\ holds_str "deter" (json_decode doc) = Returned true
       /\ Visit "flag.png" (PyList [PyStr "deter"])
          = Visit (PyStr.replace n ".json" ".png") (json_decode doc).
Proof.
  assert ((review_deter_triggers More.flagged).1
          = Returned [Visit "flag.png" (PyList [PyStr "deter"])]) as Hr
    by (vm_compute; reflexivity).
  split; [exact Hr|].
  apply (review_lists_documents_holding_deter More.flagged _ Hr). left.
Defined.

Lemma do_training_sees_label_sets_only_witness :
  (do_training [("cat", (92 # 100)%Q); ("fox", (5 # 100)%Q)] [("cat", (80 # 100)%Q)]
     1 Demo.boot).1
  = (do_training [("fox", (1 # 100)%Q); ("cat", (2 # 100)%Q); ("fox", (3 # 100)%Q)]
       [("cat", (7 # 100)%Q); ("cat", (8 # 100)%Q)] 1 Demo.boot).1.
Proof.
  apply (do_training_sees_label_sets_only
           [("cat", (92 # 100)%Q); ("fox", (5 # 100)%Q)]
           [("fox", (1 # 100)%Q); ("cat", (2 # 100)%Q); ("fox", (3 # 100)%Q)]
           [("cat", (80 # 100)%Q)]
           [("cat", (7 # 100)%Q); ("cat", (8 # 100)%Q)] 1 Demo.boot);
    intros l; cbn; rewrite ?elem_of_cons, ?elem_of_nil; tauto.
Defined.

Lemma do_training_short_result_diverges_witness :
  (Z.of_nat (length [("cat", (92 # 100)%Q)]) < 3
   \/ Z.of_nat (length [("cat", (92 # 100)%Q); ("dog", (3 # 100)%Q); ("bird", (2 # 100)%Q)]) < 3)
  /\ (do_training [("cat", (92 # 100)%Q)]
        [("cat", (92 # 100)%Q); ("dog", (3 # 100)%Q); ("bird", (2 # 100)%Q)] 3 Demo.boot).1
     = Returned true.
Proof.
  assert (Z.of_nat (length [("cat", (92 # 100)%Q)]) < 3
          \/ Z.of_nat (length [("cat", (92 # 100)%Q); ("dog", (3 # 100)%Q);
                               ("bird", (2 # 100)%Q)]) < 3) as Hs
    by (left; vm_compute; reflexivity).
  split; [exact Hs|].
  apply (do_training_short_result_diverges _ _ 3 Demo.boot Hs).
Defined.

Lemma do_training_needs_positive_top_k_witness :
  0 <= 0
  /\ do_training [("cat", (92 # 100)%Q)] [("fox", (5 # 100)%Q)] 0 Demo.boot
     = (Returned false, Demo.boot).
Proof.
  split; [lia|].
  apply (do_training_needs_positive_top_k [("cat", (92 # 100)%Q)] [("fox", (5 # 100)%Q)]
           0 Demo.boot). lia.
Defined.

Lemma stored_results_are_recoverable_witness :
  json_decode (json_of_results [mkClass 3 (92 # 100)%Q])
  = json_decode (json_of_results [mkClass 3 (92 # 100)%Q])
  /\ [mkClass 3 (92 # 100)%Q] = [mkClass 3 (92 # 100)%Q].
Proof.
  split; [reflexivity|].
  apply (stored_results_are_recoverable [mkClass 3 (92 # 100)%Q] [mkClass 3 (92 # 100)%Q]).
  reflexivity.
Defined.
